(** * CUPRA assistant: the retrieval / generation / evaluation pipeline

    A shallow embedding of [services/llm/cupra_retrieval.py] and
    [services/llm/cupra_rag_pipeline.py].

    The Python code talks to three collaborators: a PostgreSQL store with
    the pgvector extension, the OpenAI embeddings endpoint and the OpenAI
    chat endpoint.  Every call to one of them is an _external call_: it is
    appended to a trace, and it may raise.  The code is written in a small
    state-and-exception monad over a [World] that holds the store, the
    behaviour of the collaborators, the trace, the records handed to the
    logger and what was printed.

    Python floats are modelled by rationals ([Q]), Python [int] by [Z],
    Python [str] by [string]. *)

From Stdlib Require Import List String Ascii ZArith QArith Bool Lia.
From Stdlib Require Import DecimalString Qabs Sorted Permutation Lqa.
Import ListNotations.

Open Scope string_scope.
Open Scope Z_scope.

(** ** Python built-ins used by the code

    A [string] holds the UTF-8 bytes of a Python [str].  Whitespace and
    digits are the ASCII ones: a byte above 127 is neither, so the
    whitespace and the decimal digits that Unicode has outside ASCII, which
    Python's [strip] and [int] also accept, are not modelled. *)

Module Py.

(** Exceptions: the class name and [str(e)]. *)
Inductive exn : Type := PyExn (cls : string) (msg : string).

Definition exn_class (e : exn) : string := let (c, _) := e in c.
Definition str_exn (e : exn) : string := let (_, m) := e in m.

(** What evaluating a Python expression or statement ends in. *)
Inductive outcome (A : Type) : Type :=
| Ret (a : A)
| Raise (e : exn).
Arguments Ret {A} a.
Arguments Raise {A} e.

(** [None.<attr>] *)
Definition attribute_error_none (attr : string) : exn :=
  PyExn "AttributeError"
        ("'NoneType' object has no attribute '" ++ attr ++ "'").

Definition nl : string := String (ascii_of_nat 10) "".

(** [sep.join(parts)] *)
Definition join (sep : string) (parts : list string) : string :=
  String.concat sep parts.

(** [str(n)] for an [int]. *)
Definition str_int (n : Z) : string := NilZero.string_of_int (Z.to_int n).

(** [c.isspace()] on the characters below 128: tab, line feed, vertical
    tab, form feed, carriage return, the four separators 28..31, space. *)
Definition isspace (c : ascii) : bool :=
  let n := nat_of_ascii c in
  ((9 <=? n)%nat && (n <=? 13)%nat) || ((28 <=? n)%nat && (n <=? 32)%nat).

Fixpoint lstrip (s : string) : string :=
  match s with
  | String c s' => if isspace c then lstrip s' else s
  | EmptyString => EmptyString
  end.

Definition is_empty (s : string) : bool :=
  match s with EmptyString => true | _ => false end.

Fixpoint rstrip (s : string) : string :=
  match s with
  | String c s' =>
      let r := rstrip s' in
      if isspace c && is_empty r then EmptyString else String c r
  | EmptyString => EmptyString
  end.

(** [s.strip()] *)
Definition strip (s : string) : string := rstrip (lstrip s).

Definition isdigit (c : ascii) : bool :=
  let n := nat_of_ascii c in (48 <=? n)%nat && (n <=? 57)%nat.

Definition digit_value (c : ascii) : Z := Z.of_nat (nat_of_ascii c) - 48.

(** The digit part of an integer literal: digits, with single underscores
    allowed between two digits. *)
Fixpoint digits (s : string) (acc : Z) (after_digit : bool) : option Z :=
  match s with
  | EmptyString => if after_digit then Some acc else None
  | String c s' =>
      if isdigit c then digits s' (10 * acc + digit_value c) true
      else if Ascii.eqb c "_" then
             if after_digit then digits s' acc false else None
           else None
  end.

(** [int(s)] for a [str] in base ten: surrounding whitespace is dropped,
    one sign is allowed.  [None] stands for [ValueError]. *)
Definition int (s : string) : option Z :=
  match strip s with
  | EmptyString => None
  | String c r =>
      if Ascii.eqb c "+" then digits r 0 false
      else if Ascii.eqb c "-" then option_map Z.opp (digits r 0 false)
      else digits (String c r) 0 false
  end.

(** [x or default] for an optional string: [None] and the empty string
    are falsy. *)
Definition str_or (x : option string) (default : string) : string :=
  match x with
  | Some s => if is_empty s then default else s
  | None => default
  end.

(** [x or default] for an optional integer: [None] and [0] are falsy. *)
Definition int_or (x : option Z) (default : Z) : Z :=
  match x with
  | Some n => if n =? 0 then default else n
  | None => default
  end.

(** [sum(xs)] over floats: starts from [0] and adds from the left. *)
Definition sum (xs : list Q) : Q := fold_left Qplus xs 0%Q.

(** [format(x, '.2f')]: two decimals, ties to even. *)
Definition round_half_even (x : Q) : Z :=
  let n := Qnum x in
  let d := Zpos (Qden x) in
  let q := n / d in
  let r := n mod d in
  match 2 * r ?= d with
  | Lt => q
  | Gt => q + 1
  | Eq => if Z.even q then q else q + 1
  end.

Definition two_digits (n : Z) : string :=
  if n <? 10 then "0" ++ str_int n else str_int n.

Definition format_2f (x : Q) : string :=
  let neg := Qnum x <? 0 in
  let cents := round_half_even (Qabs x * 100) in
  (if neg then "-" else "")
    ++ str_int (cents / 100) ++ "." ++ two_digits (cents mod 100).

End Py.
Import Py.

(** ** The store: PostgreSQL with pgvector *)

(** A row of table [cupra_chunks].  Every column but [id] is nullable. *)
Record Passage : Type := mkPassage {
  p_id : Z;
  p_title : option string;
  p_contenido : option string;
  p_char_count : option Z;
  p_subchunk : option Z;
  p_embedding : option (list Q);
  p_created_at : option Z
}.

(** What the queries of the code can observe of the database.
    [cupra_chunks] is [None] when the table does not exist; its rows are
    kept in the store's scan order. *)
Record DbState : Type := mkDb {
  pgvector_installed : bool;
  cupra_indexes : list string;
  cupra_chunks : option (list Passage)
}.

(** A row of the nearest-neighbour query, as a [RealDictRow]. *)
Record Row : Type := mkRow {
  row_id : Z;
  row_titulo : option string;
  row_cont : option string;
  row_num : option Z;
  row_subchunk : option Z;
  row_similitud : option Q;
  row_created_at : option Z
}.

(** A value of the statistics mapping. *)
Inductive statval : Type :=
| SNone
| SInt (n : Z)
| SDecimal (q : Q)
| STimestamp (t : Z).

(** ** External calls *)

Inductive call : Type :=
| PgConnect
| PgCursor
| PgExecute (sql : string) (params : list string)
| PgFetchone
| PgFetchall
| PgCursorClose
| PgConnClose
| EmbeddingsCreate (model input : string)
| ChatCreate (model : string) (messages : list (string * string))
             (temperature : Q) (max_tokens : Z)
| DatetimeNow.

Inductive level : Type := DEBUG | INFO | WARNING | ERROR.

Record Logger : Type := mkLogger { logger_name : string }.

(** The world a call runs in.  [fault n] is the exception, if any, that
    the [n]-th external call raises; [embedding_reply n input] and
    [chat_reply n messages] are what the two OpenAI endpoints answer to
    the [n]-th external call when it does not raise
    ([response.data[0].embedding] and
    [response.choices[0].message.content], which may be [None]). *)
Record World : Type := mkWorld {
  db : DbState;
  fault : nat -> option exn;
  embedding_reply : nat -> string -> list Q;
  chat_reply : nat -> list (string * string) -> option string;
  clock : nat -> string;
  trace : list call;
  logs : list (Logger * level * string);
  stdout : list string
}.

Definition record_call (c : call) (w : World) : World :=
  mkWorld (db w) (fault w) (embedding_reply w) (chat_reply w) (clock w)
          (trace w ++ [c]) (logs w) (stdout w).

Definition record_log (r : Logger * level * string) (w : World) : World :=
  mkWorld (db w) (fault w) (embedding_reply w) (chat_reply w) (clock w)
          (trace w) (logs w ++ [r]) (stdout w).

Definition record_print (s : string) (w : World) : World :=
  mkWorld (db w) (fault w) (embedding_reply w) (chat_reply w) (clock w)
          (trace w) (logs w) (stdout w ++ [s]).

(** ** The monad of the code: state and exceptions *)

Definition M (A : Type) : Type := World -> World * outcome A.

Definition ret {A : Type} (a : A) : M A := fun w => (w, Ret a).

Definition raise {A : Type} (e : exn) : M A := fun w => (w, Raise e).

Definition bind {A B : Type} (m : M A) (k : A -> M B) : M B :=
  fun w =>
    match m w with
    | (w', Ret a) => k a w'
    | (w', Raise e) => (w', Raise e)
    end.

(** [try: body  except Exception as e: handler e] *)
Definition try_except {A : Type} (body : M A) (handler : exn -> M A) : M A :=
  fun w =>
    match body w with
    | (w', Ret a) => (w', Ret a)
    | (w', Raise e) => handler e w'
    end.

Declare Scope py_scope.
Delimit Scope py_scope with py.
Notation "x <- m ;; k" := (bind m (fun x => k))
  (at level 100, m at next level, right associativity) : py_scope.
Notation "m ;;; k" := (bind m (fun _ => k))
  (at level 100, right associativity) : py_scope.
Open Scope py_scope.

(** An external call: recorded in the trace, then it raises or answers. *)
Definition external {A : Type} (c : call) (answer : World -> nat -> outcome A)
  : M A :=
  fun w =>
    let n := List.length (trace w) in
    let w' := record_call c w in
    match fault w n with
    | Some e => (w', Raise e)
    | None => (w', answer w n)
    end.

(** [print(s)] *)
Definition print (s : string) : M unit := fun w => (record_print s w, Ret tt).

Definition level_method (l : level) : string :=
  match l with
  | DEBUG => "debug"
  | INFO => "info"
  | WARNING => "warning"
  | ERROR => "error"
  end.

(** [logger.<level>(msg)]; the logger of the code may be [None]. *)
Definition log (logger : option Logger) (l : level) (msg : string) : M unit :=
  fun w =>
    match logger with
    | Some lg => (record_log (lg, l, msg) w, Ret tt)
    | None => (w, Raise (attribute_error_none (level_method l)))
    end.

(** ** What the host process supplies

    The model names come from environment variables.  [float_repr] is
    [str(x)] for a float [x]; [pgvector_distance lit v] is pgvector's
    [v <=> lit::vector] for a stored vector [v] and the text [lit] of a
    vector (it raises, for instance, on vectors of different dimensions). *)
Record Host : Type := mkHost {
  EMBEDDING_MODEL : string;
  MODEL_GPT : string;
  float_repr : Q -> string;
  pgvector_distance : string -> list Q -> outcome Q
}.

(** ** The SQL of the code, evaluated on a [DbState] *)

Module Sql.

Definition undefined_table : exn :=
  PyExn "UndefinedTable" "relation cupra_chunks does not exist".

Definition table (d : DbState) : outcome (list Passage) :=
  match cupra_chunks d with
  | Some rows => Ret rows
  | None => Raise undefined_table
  end.

(** [SELECT extname FROM pg_extension WHERE extname = 'vector';] *)
Definition extension_text : string :=
  "SELECT extname FROM pg_extension WHERE extname = 'vector';".

Definition extension (d : DbState) : outcome (list string) :=
  Ret (if pgvector_installed d then ["vector"] else []).

(** [SELECT EXISTS (SELECT FROM information_schema.tables
                    WHERE table_name = 'cupra_chunks');] *)
Definition table_exists_text : string :=
  "SELECT EXISTS ( SELECT FROM information_schema.tables WHERE table_name = 'cupra_chunks' );".

Definition table_exists (d : DbState) : outcome (list bool) :=
  Ret [match cupra_chunks d with Some _ => true | None => false end].

(** [SELECT indexname FROM pg_indexes
     WHERE tablename = 'cupra_chunks' AND indexname LIKE '%embedding%';] *)
Definition vector_index_text : string :=
  "SELECT indexname FROM pg_indexes WHERE tablename = 'cupra_chunks' AND indexname LIKE '%embedding%';".

Definition like_embedding (name : string) : bool :=
  match index 0 "embedding" name with Some _ => true | None => false end.

Definition vector_index (d : DbState) : outcome (list string) :=
  Ret (match cupra_chunks d with
       | Some _ => filter like_embedding (cupra_indexes d)
       | None => []
       end).

(** The four statistics, each one row of one column. *)
Definition count_text : string :=
  "SELECT COUNT(*) as count FROM cupra_chunks;".
Definition distinct_titles_text : string :=
  "SELECT COUNT(DISTINCT title) as count FROM cupra_chunks;".
Definition avg_chars_text : string :=
  "SELECT AVG(char_count) as avg_chars FROM cupra_chunks;".
Definition last_insert_text : string :=
  "SELECT MAX(created_at) as last_insert FROM cupra_chunks;".

Fixpoint not_null {A : Type} (l : list (option A)) : list A :=
  match l with
  | [] => []
  | Some a :: l' => a :: not_null l'
  | None :: l' => not_null l'
  end.

Definition count (d : DbState) : outcome (list statval) :=
  match table d with
  | Ret rows => Ret [SInt (Z.of_nat (List.length rows))]
  | Raise e => Raise e
  end.

Definition distinct_titles (d : DbState) : outcome (list statval) :=
  match table d with
  | Ret rows =>
      Ret [SInt (Z.of_nat (List.length
                  (nodup string_dec (not_null (map p_title rows)))))]
  | Raise e => Raise e
  end.

Definition avg_chars (d : DbState) : outcome (list statval) :=
  match table d with
  | Ret rows =>
      let xs := not_null (map p_char_count rows) in
      Ret [match xs with
           | [] => SNone
           | _ => SDecimal (inject_Z (fold_left Z.add xs 0)
                            / inject_Z (Z.of_nat (List.length xs)))
           end]
  | Raise e => Raise e
  end.

Definition last_insert (d : DbState) : outcome (list statval) :=
  match table d with
  | Ret rows =>
      Ret [match not_null (map p_created_at rows) with
           | [] => SNone
           | t :: ts => STimestamp (fold_left Z.max ts t)
           end]
  | Raise e => Raise e
  end.

(** The nearest-neighbour query:
[[
   SELECT id, title as titulo, contenido as cont, char_count as num,
          subchunk, 1 - (embedding <=> %s::vector) as similitud, created_at
   FROM cupra_chunks
   ORDER BY embedding <=> %s::vector
   LIMIT %s;
]]
    A NULL embedding has a NULL distance; ascending order puts NULLs
    last; rows of equal distance stay in scan order. *)
Definition nearest_text : string :=
  "SELECT id, title as titulo, contenido as cont, char_count as num, subchunk, 1 - (embedding <=> %s::vector) as similitud, created_at FROM cupra_chunks ORDER BY embedding <=> %s::vector LIMIT %s;".

Definition distance (h : Host) (lit : string) (p : Passage)
  : outcome (option Q) :=
  match p_embedding p with
  | None => Ret None
  | Some v =>
      match pgvector_distance h lit v with
      | Ret x => Ret (Some x)
      | Raise e => Raise e
      end
  end.

(** One row with its sort key. *)
Definition keyed_row (h : Host) (lit_select lit_order : string) (p : Passage)
  : outcome (option Q * Row) :=
  match distance h lit_select p, distance h lit_order p with
  | Ret ds, Ret dk =>
      Ret (dk, mkRow (p_id p) (p_title p) (p_contenido p) (p_char_count p)
                     (p_subchunk p) (option_map (fun x => 1 - x)%Q ds)
                     (p_created_at p))
  | Raise e, _ => Raise e
  | _, Raise e => Raise e
  end.

Fixpoint keyed_rows (h : Host) (lit_select lit_order : string)
         (ps : list Passage) : outcome (list (option Q * Row)) :=
  match ps with
  | [] => Ret []
  | p :: ps' =>
      match keyed_row h lit_select lit_order p with
      | Raise e => Raise e
      | Ret r =>
          match keyed_rows h lit_select lit_order ps' with
          | Raise e => Raise e
          | Ret rs => Ret (r :: rs)
          end
      end
  end.

Definition key_le (a b : option Q) : bool :=
  match a, b with
  | Some x, Some y => Qle_bool x y
  | Some _, None => true
  | None, Some _ => false
  | None, None => true
  end.

Fixpoint insert_row (x : option Q * Row) (l : list (option Q * Row))
  : list (option Q * Row) :=
  match l with
  | [] => [x]
  | y :: l' =>
      if key_le (fst x) (fst y) then x :: l else y :: insert_row x l'
  end.

Definition order_by_key (l : list (option Q * Row)) : list (option Q * Row) :=
  fold_right insert_row [] l.

Definition nearest (h : Host) (lit_select lit_order : string) (k : Z)
           (d : DbState) : outcome (list Row) :=
  match table d with
  | Raise e => Raise e
  | Ret ps =>
      match keyed_rows h lit_select lit_order ps with
      | Raise e => Raise e
      | Ret rs =>
          if k <? 0
          then Raise (PyExn "InvalidRowCountInLimitClause"
                            "LIMIT must not be negative")
          else Ret (firstn (Z.to_nat k) (map snd (order_by_key rs)))
      end
  end.

End Sql.

(** ** psycopg2 and OpenAI, as external calls *)

Definition _get_connection : M unit := external PgConnect (fun _ _ => Ret tt).

Definition conn_cursor : M unit := external PgCursor (fun _ _ => Ret tt).

(** [cur.execute(sql, params)]: the rows the cursor then holds. *)
Definition cur_execute {A : Type} (sql : string) (params : list string)
           (rows : DbState -> outcome (list A)) : M (list A) :=
  external (PgExecute sql params) (fun w _ => rows (db w)).

Definition cur_fetchone {A : Type} (rows : list A) : M (option A) :=
  external PgFetchone (fun _ _ => Ret (hd_error rows)).

Definition cur_fetchall {A : Type} (rows : list A) : M (list A) :=
  external PgFetchall (fun _ _ => Ret rows).

Definition cur_close : M unit := external PgCursorClose (fun _ _ => Ret tt).

Definition conn_close : M unit := external PgConnClose (fun _ _ => Ret tt).

(** [client.embeddings.create(model=..., input=...).data[0].embedding] *)
Definition embeddings_create (model input : string) : M (list Q) :=
  external (EmbeddingsCreate model input)
           (fun w n => Ret (embedding_reply w n input)).

(** [client.chat.completions.create(...).choices[0].message.content] *)
Definition chat_completions_create (model : string)
           (messages : list (string * string)) (temperature : Q)
           (max_tokens : Z) : M (option string) :=
  external (ChatCreate model messages temperature max_tokens)
           (fun w n => Ret (chat_reply w n messages)).

(** [datetime.now().strftime(...)]: reads the clock, never raises. *)
Definition datetime_now : M string :=
  fun w => (record_call DatetimeNow w, Ret (clock w (List.length (trace w)))).

(** ** services/llm/cupra_retrieval.py *)

Record Chunk : Type := mkChunk {
  chunk_id : Z;
  titulo : string;
  cont : string;
  similitud : Q;
  subchunk : Z;
  num : Z;
  created_at : option Z
}.

(** The mapping of [verificar_salud_bd]; key ['error'] is absent on the
    success path. *)
Record Salud : Type := mkSalud {
  pgvector_instalado : bool;
  tabla_existe : bool;
  indice_vectorial : bool;
  conexion_ok : bool;
  error : option string
}.

(** A Python [dict] with string keys, in insertion order. *)
Definition dict (V : Type) : Type := list (string * V).

Fixpoint dict_get {V : Type} (d : dict V) (key : string) : option V :=
  match d with
  | [] => None
  | (k, v) :: d' => if String.eqb k key then Some v else dict_get d' key
  end.

Fixpoint dict_set {V : Type} (d : dict V) (key : string) (v : V) : dict V :=
  match d with
  | [] => [(key, v)]
  | (k, v') :: d' =>
      if String.eqb k key then (k, v) :: d' else (k, v') :: dict_set d' key v
  end.

(** [d.get(key, default)] *)
Definition dict_get_default {V : Type} (d : dict V) (key : string) (default : V)
  : V :=
  match dict_get d key with Some v => v | None => default end.

(** [float(x)] on the [similitud] column. *)
Definition float_of_column (x : option Q) : outcome Q :=
  match x with
  | Some q => Ret q
  | None =>
      Raise (PyExn "TypeError"
        "float() argument must be a string or a real number, not 'NoneType'")
  end.

Definition chunk_of_row (row : Row) : outcome Chunk :=
  match float_of_column (row_similitud row) with
  | Raise e => Raise e
  | Ret s =>
      Ret (mkChunk (row_id row)
                   (str_or (row_titulo row) "Sin título")
                   (str_or (row_cont row) "")
                   s
                   (int_or (row_subchunk row) 0)
                   (int_or (row_num row) 0)
                   (row_created_at row))
  end.

(** The loop [for row in resultados: chunks_similares.append(chunk)]. *)
Fixpoint chunks_of_rows (resultados : list Row) (chunks_similares : list Chunk)
  : outcome (list Chunk) :=
  match resultados with
  | [] => Ret chunks_similares
  | row :: rest =>
      match chunk_of_row row with
      | Raise e => Raise e
      | Ret chunk => chunks_of_rows rest (chunks_similares ++ [chunk])
      end
  end.

Definition lift {A : Type} (o : outcome A) : M A := fun w => (w, o).

Section CupraRetrieval.

Variable host : Host.

Definition generar_embedding_query (query : string) (logger : option Logger)
  : M (list Q) :=
  if is_empty query || is_empty (strip query) then ret []
  else
    try_except
      (embeddings_create (EMBEDDING_MODEL host) (strip query))
      (fun e =>
         log logger WARNING
             ("❌ Error generando embedding para la query: " ++ str_exn e) ;;;
         ret []).

Definition embedding_str (query_embedding : list Q) : string :=
  "[" ++ join "," (map (float_repr host) query_embedding) ++ "]".

Definition buscar_chunks_similares (query : string) (top_k : Z)
           (logger : option Logger) : M (list Chunk) :=
  try_except
    (log logger DEBUG "Convirtiendo pregunta a embedding" ;;;
     query_embedding <- generar_embedding_query query None ;;
     match query_embedding with
     | [] =>
         log logger WARNING
             "❌ No se pudo generar embedding para la consulta" ;;;
         ret []
     | _ :: _ =>
         let lit := embedding_str query_embedding in
         _get_connection ;;;
         conn_cursor ;;;
         rows <- cur_execute Sql.nearest_text [lit; lit; str_int top_k]
                             (Sql.nearest host lit lit top_k) ;;
         resultados <- cur_fetchall rows ;;
         chunks_similares <- lift (chunks_of_rows resultados []) ;;
         cur_close ;;;
         conn_close ;;;
         ret chunks_similares
     end)
    (fun e =>
       log logger ERROR ("❌ Error en búsqueda vectorial: " ++ str_exn e) ;;;
       ret []).

(** [result[list(result.keys())[0]]] on what [fetchone] returned. *)
Definition first_column (result : option statval) : M statval :=
  match result with
  | Some v => ret v
  | None => raise (attribute_error_none "keys")
  end.

Definition queries : list (string * (string * (DbState -> outcome (list statval)))) :=
  [ ("total_chunks", (Sql.count_text, Sql.count));
    ("titulos_unicos", (Sql.distinct_titles_text, Sql.distinct_titles));
    ("promedio_caracteres", (Sql.avg_chars_text, Sql.avg_chars));
    ("ultimo_ingreso", (Sql.last_insert_text, Sql.last_insert)) ].

(** The loop [for key, query in queries.items(): ...]. *)
Fixpoint collect_stats
         (qs : list (string * (string * (DbState -> outcome (list statval)))))
         (stats : dict statval) : M (dict statval) :=
  match qs with
  | [] => ret stats
  | (key, (text, rows)) :: qs' =>
      held <- cur_execute text [] rows ;;
      result <- cur_fetchone held ;;
      v <- first_column result ;;
      collect_stats qs' (dict_set stats key v)
  end.

Definition obtener_estadisticas_bd (logger : option Logger)
  : M (dict statval) :=
  try_except
    (_get_connection ;;;
     conn_cursor ;;;
     stats <- collect_stats queries [] ;;
     cur_close ;;;
     conn_close ;;;
     ret stats)
    (fun e =>
       log logger WARNING ("Error obteniendo estadísticas: " ++ str_exn e) ;;;
       ret []).

(** [cur.fetchone()[0]] *)
Definition first_of {A : Type} (row : option A) : M A :=
  match row with
  | Some v => ret v
  | None =>
      raise (PyExn "TypeError" "'NoneType' object is not subscriptable")
  end.

Definition is_not_none {A : Type} (x : option A) : bool :=
  match x with Some _ => true | None => false end.

Definition verificar_salud_bd : M Salud :=
  try_except
    (_get_connection ;;;
     conn_cursor ;;;
     held1 <- cur_execute Sql.extension_text [] Sql.extension ;;
     row1 <- cur_fetchone held1 ;;
     let pgvector_exists := is_not_none row1 in
     held2 <- cur_execute Sql.table_exists_text [] Sql.table_exists ;;
     row2 <- cur_fetchone held2 ;;
     table_exists <- first_of row2 ;;
     held3 <- cur_execute Sql.vector_index_text [] Sql.vector_index ;;
     row3 <- cur_fetchone held3 ;;
     let vector_index_exists := is_not_none row3 in
     cur_close ;;;
     conn_close ;;;
     ret (mkSalud pgvector_exists table_exists vector_index_exists true None))
    (fun e =>
       print ("❌ Error verificando salud de BD: " ++ str_exn e) ;;;
       ret (mkSalud false false false false (Some (str_exn e)))).

Definition busqueda_cupra_chunks (query : string) (top_k : Z)
           (logger : option Logger) : M (list Chunk) :=
  try_except
    (resultados <- buscar_chunks_similares query top_k logger ;;
     match resultados with
     | _ :: _ =>
         log logger INFO
             (" Búsqueda exitosa: "
                ++ str_int (Z.of_nat (List.length resultados))
                ++ " resultados") ;;;
         ret resultados
     | [] =>
         log logger WARNING "⚠️ No se encontraron resultados" ;;;
         ret resultados
     end)
    (fun e =>
       print ("❌ Error en búsqueda de chunks: " ++ str_exn e) ;;;
       ret []).

End CupraRetrieval.

(** ** services/llm/cupra_retrieval.py: the connection test and the search
    by title *)

(** A row of the search by title, as a [RealDictRow]. *)
Record RowTitulo : Type := mkRowTitulo {
  rt_id : Z;
  rt_titulo : option string;
  rt_cont : option string;
  rt_num : option Z;
  rt_subchunk : option Z;
  rt_created_at : option Z
}.

(** A chunk of the search by title: it has no ['similitud']. *)
Record ChunkTitulo : Type := mkChunkTitulo {
  ct_chunk_id : Z;
  ct_titulo : string;
  ct_cont : string;
  ct_num : Z;
  ct_subchunk : Z;
  ct_created_at : option Z
}.

Module SqlTitulo.

(** The search by title:
[[
   SELECT id, title as titulo, contenido as cont, char_count as num,
          subchunk, created_at
   FROM cupra_chunks
   WHERE title ILIKE %s
   ORDER BY char_count DESC
   LIMIT %s;
]]
    A NULL title matches nothing; descending order puts NULLs first;
    rows of equal [char_count] stay in scan order. *)
Definition by_title_text : string :=
  "SELECT id, title as titulo, contenido as cont, char_count as num, subchunk, created_at FROM cupra_chunks WHERE title ILIKE %s ORDER BY char_count DESC LIMIT %s;".

Definition matches (ilike : string -> string -> bool) (pattern : string)
           (p : Passage) : bool :=
  match p_title p with
  | Some t => ilike t pattern
  | None => false
  end.

Definition key_ge (a b : option Z) : bool :=
  match a, b with
  | None, _ => true
  | Some _, None => false
  | Some x, Some y => y <=? x
  end.

Fixpoint insert_desc (x : Passage) (l : list Passage) : list Passage :=
  match l with
  | [] => [x]
  | y :: l' =>
      if key_ge (p_char_count x) (p_char_count y)
      then x :: l
      else y :: insert_desc x l'
  end.

Definition order_desc (l : list Passage) : list Passage :=
  fold_right insert_desc [] l.

Definition row_of (p : Passage) : RowTitulo :=
  mkRowTitulo (p_id p) (p_title p) (p_contenido p) (p_char_count p)
              (p_subchunk p) (p_created_at p).

Definition by_title (ilike : string -> string -> bool) (pattern : string)
           (limit : Z) (d : DbState) : outcome (list RowTitulo) :=
  match Sql.table d with
  | Raise e => Raise e
  | Ret ps =>
      if limit <? 0
      then Raise (PyExn "InvalidRowCountInLimitClause"
                        "LIMIT must not be negative")
      else Ret (firstn (Z.to_nat limit)
                       (map row_of (order_desc (filter (matches ilike pattern) ps))))
  end.

End SqlTitulo.

Definition chunk_of_row_titulo (row : RowTitulo) : ChunkTitulo :=
  mkChunkTitulo (rt_id row)
                (str_or (rt_titulo row) "Sin título")
                (str_or (rt_cont row) "")
                (int_or (rt_num row) 0)
                (int_or (rt_subchunk row) 0)
                (rt_created_at row).

(** [_test_connection]: the handler prints and raises the exception again. *)
Definition _test_connection : M unit :=
  try_except
    (_get_connection ;;;
     conn_close)
    (fun e =>
       print ("❌ Error conectando a PostgreSQL: " ++ str_exn e) ;;;
       raise e).

Section BuscarPorTitulo.

(** [ilike text pattern] is PostgreSQL's [text ILIKE pattern]. *)
Variable ilike : string -> string -> bool.

Definition buscar_por_titulo (titulo_busqueda : string) (limit : Z)
  : M (list ChunkTitulo) :=
  try_except
    (_get_connection ;;;
     conn_cursor ;;;
     let pattern := "%" ++ titulo_busqueda ++ "%" in
     rows <- cur_execute SqlTitulo.by_title_text [pattern; str_int limit]
                         (SqlTitulo.by_title ilike pattern limit) ;;
     resultados <- cur_fetchall rows ;;
     let chunks := map chunk_of_row_titulo resultados in
     cur_close ;;;
     conn_close ;;;
     print ("📚 Encontrados " ++ str_int (Z.of_nat (List.length chunks))
              ++ " chunks por título") ;;;
     ret chunks)
    (fun e =>
       print ("❌ Error en búsqueda por título: " ++ str_exn e) ;;;
       ret []).

End BuscarPorTitulo.

(** ** services/llm/cupra_rag_pipeline.py *)

Record Fuente : Type := mkFuente {
  fuente_titulo : string;
  fuente_similitud : Q;
  fuente_subchunk : Z;
  fuente_chunk_id : Z
}.

(** The mapping of [paso_2_llm].  ['respuesta'] is the content of the
    model's message, which the client types as optional. *)
Record RespuestaLLM : Type := mkRespuestaLLM {
  respuesta : option string;
  contexto_usado : list string;
  confianza : Q;
  fuentes : list Fuente
}.

(** The mapping of [procesar_consulta_completa]. *)
Record Resultado : Type := mkResultado {
  res_query : string;
  chunks_recuperados : list Chunk;
  respuesta_llm : RespuestaLLM;
  evaluacion_calidad : string;
  timestamp : string;
  fuente : string
}.

Record CupraRAGPipeline : Type := mkPipeline { self_logger : option Logger }.

(** [f"{x}"] for an optional string. *)
Definition str_optional (x : option string) : string :=
  match x with Some s => s | None => "None" end.

(** [stats.get('total_chunks', 0) == 0] *)
Definition equals_zero (v : statval) : bool :=
  match v with
  | SInt n => n =? 0
  | SDecimal q => Qeq_bool q 0
  | SNone => false
  | STimestamp _ => false
  end.

Definition respuesta_sin_chunks : RespuestaLLM :=
  mkRespuestaLLM
    (Some "Lo siento, no encontré información relevante en el manual de CUPRA para responder tu consulta. ¿Podrías reformular tu pregunta o ser más específico?")
    [] 0%Q [].

Definition system_cupra : string :=
  "Eres un asistente técnico especializado en vehículos CUPRA. Responde ÚNICAMENTE basándote en la información del manual oficial proporcionada. Si no tienes información suficiente, indícalo claramente. Mantén un tono profesional pero accesible.".

Definition system_quality : string :=
  "Eres un evaluador de calidad de respuestas técnicas. Evalúa la respuesta del 1 al 10 considerando: relevancia, precisión, completitud, claridad y fundamentación. Responde SOLO con el número.".

(** The body of the loop of [_construir_contexto]. *)
Definition contexto_parte (i : Z) (chunk : Chunk) : string :=
  ("INFORMACIÓN " ++ str_int i ++ ":" ++ nl)
    ++ ("Título: " ++ titulo chunk ++ nl)
    ++ (if subchunk chunk >? 0
        then "Sección: " ++ str_int (subchunk chunk) ++ nl
        else "")
    ++ ("Contenido: " ++ cont chunk ++ nl).

(** [for i, chunk in enumerate(chunks, start)] *)
Fixpoint construir_desde (i : Z) (chunks : list Chunk) : list string :=
  match chunks with
  | [] => []
  | chunk :: rest => contexto_parte i chunk :: construir_desde (i + 1) rest
  end.

Definition _construir_contexto (chunks : list Chunk) : list string :=
  construir_desde 1 chunks.

Definition _crear_prompt_cupra (query : string) (contexto : list string)
  : string :=
  let contexto_str := join (nl ++ nl) contexto in
  join nl
    [ "Basándote EXCLUSIVAMENTE en la siguiente información del manual oficial de CUPRA, responde la consulta del usuario de manera precisa y útil.";
      "";
      "INFORMACIÓN DEL MANUAL CUPRA:";
      contexto_str;
      "";
      "CONSULTA DEL USUARIO:";
      query;
      "";
      "INSTRUCCIONES DE FORMATO Y CONTENIDO:";
      "1. Responde ÚNICAMENTE basándote en la información proporcionada del manual";
      "2. IMPORTANTE - Estructura tu respuesta de forma clara y legible:";
      "   - Usa SALTOS DE LÍNEA entre secciones principales";
      "   - Para pasos numerados, pon cada paso en una nueva línea";
      "   - Separa claramente las secciones (ej: pasos principales, condiciones, precauciones)";
      "   - Usa **negrita** para títulos de secciones importantes";
      "   - Deja una línea en blanco entre párrafos diferentes";
      "3. Si hay procedimientos paso a paso:";
      "   - Numera cada paso principal (1., 2., 3., etc.)";
      "   - Los sub-pasos van con guiones (-)";
      "   - Cada paso en su propia línea";
      "4. Agrupa la información en secciones lógicas como:";
      "   - Pasos principales";
      "   - Condiciones importantes";
      "   - Precauciones o advertencias";
      "   - Información adicional";
      "5. Mantén un tono profesional pero accesible";
      "6. Si la información no es suficiente, indícalo claramente al final";
      "";
      "FORMATO DE EJEMPLO para respuestas con pasos:";
      "";
      "**Título de la función**";
      "";
      "**Pasos principales:**";
      "";
      "1. **Primer paso**";
      "   - Detalle del paso";
      "   - Otro detalle si es necesario";
      "";
      "2. **Segundo paso**";
      "   - Explicación clara";
      "";
      "**Condiciones importantes:**";
      "- Primera condición";
      "- Segunda condición";
      "";
      "**Precauciones:**";
      "⚠️ Advertencia importante";
      "";
      "RESPUESTA:" ].

Definition _crear_prompt_quality (query : string) (respuesta_llm : RespuestaLLM)
  : string :=
  join nl
    [ "Evalúa del 1 al 10 la calidad de esta respuesta sobre vehículos CUPRA:";
      "";
      "CONSULTA:";
      query;
      "";
      "RESPUESTA:";
      str_optional (respuesta respuesta_llm);
      "";
      "CRITERIOS DE EVALUACIÓN:";
      "1. Relevancia: ¿Responde directamente a la consulta?";
      "2. Precisión: ¿Es técnicamente correcta?";
      "3. Completitud: ¿Cubre los aspectos importantes?";
      "4. Claridad: ¿Es fácil de entender?";
      "5. Fundamentación: ¿Está basada en la información proporcionada?";
      "";
      "Responde SOLO con el número del 1 al 10:" ].

Definition fuente_de (chunk : Chunk) : Fuente :=
  mkFuente (titulo chunk) (similitud chunk) (subchunk chunk) (chunk_id chunk).

(** [evaluacion.choices[0].message.content.strip()] *)
Definition strip_content (content : option string) : M string :=
  match content with
  | Some s => ret (strip s)
  | None => raise (attribute_error_none "strip")
  end.

(** [int(evaluacion_texto)] *)
Definition int_of_text (s : string) : M Z :=
  match int s with
  | Some n => ret n
  | None =>
      raise (PyExn "ValueError"
               ("invalid literal for int() with base 10: '" ++ s ++ "'"))
  end.

Definition _get_timestamp : M string := datetime_now.

Section Pipeline.

Variable host : Host.

Definition __init__ (logger : option Logger) : M CupraRAGPipeline :=
  salud_bd <- verificar_salud_bd ;;
  if negb (conexion_ok salud_bd)
  then raise (PyExn "Exception"
                "❌ No se puede conectar a la base de datos PostgreSQL")
  else
    stats <- obtener_estadisticas_bd None ;;
    if equals_zero (dict_get_default stats "total_chunks" (SInt 0))
    then raise (PyExn "Exception" "❌ No hay chunks en la base de datos")
    else ret (mkPipeline logger).

Definition paso_1_rag (self : CupraRAGPipeline) (query : string) (top_k : Z)
  : M (list Chunk) :=
  log (self_logger self) INFO
      ("PASO 1 - RAG: Buscando información para '" ++ query ++ "'...") ;;;
  try_except
    (resultados <- busqueda_cupra_chunks host query top_k (self_logger self) ;;
     match resultados with
     | _ :: _ =>
         log (self_logger self) INFO
             (" RAG exitoso: "
                ++ str_int (Z.of_nat (List.length resultados))
                ++ " chunks recuperados") ;;;
         ret resultados
     | [] =>
         log (self_logger self) ERROR
             "❌ RAG: No se encontraron chunks relevantes" ;;;
         ret resultados
     end)
    (fun e =>
       log (self_logger self) WARNING
           ("❌ Error en PASO 1 - RAG: " ++ str_exn e) ;;;
       ret []).

Definition paso_2_llm (self : CupraRAGPipeline) (query : string)
           (chunks_relevantes : list Chunk) : M RespuestaLLM :=
  log (self_logger self) INFO "PASO 2 - LLM: Generando respuesta..." ;;;
  match chunks_relevantes with
  | [] =>
      log (self_logger self) ERROR
          "No se encontro información relevante en el manual CUPRA" ;;;
      ret respuesta_sin_chunks
  | _ :: _ =>
      try_except
        (log (self_logger self) DEBUG "Construyendo contexto desde los chunks" ;;;
         let contexto := _construir_contexto chunks_relevantes in
         log (self_logger self) DEBUG "Creando prompt" ;;;
         let prompt := _crear_prompt_cupra query contexto in
         log (self_logger self) DEBUG "haciendo llamada al llm" ;;;
         respuesta_texto <-
           chat_completions_create (MODEL_GPT host)
             [("system", system_cupra); ("user", prompt)]
             (3 # 10)%Q 1000 ;;
         let confianza :=
           (Py.sum (map similitud chunks_relevantes)
            / inject_Z (Z.of_nat (List.length chunks_relevantes)))%Q in
         let fuentes := map fuente_de chunks_relevantes in
         let resultado :=
           mkRespuestaLLM respuesta_texto contexto confianza fuentes in
         log (self_logger self) INFO
             (" LLM Confianza: " ++ format_2f confianza) ;;;
         ret resultado)
        (fun e =>
           log (self_logger self) WARNING
               ("❌ Error en PASO 2 - LLM: " ++ str_exn e) ;;;
           ret (mkRespuestaLLM
                  (Some ("Error generando respuesta: " ++ str_exn e))
                  [] 0%Q []))
  end.

Definition paso_3_quality_agent (self : CupraRAGPipeline) (query : string)
           (respuesta_llm : RespuestaLLM) : M string :=
  log (self_logger self) INFO "PASO 3 - Quality Agent: Evaluando calidad..." ;;;
  try_except
    (let prompt_quality := _crear_prompt_quality query respuesta_llm in
     content <-
       chat_completions_create (MODEL_GPT host)
         [("system", system_quality); ("user", prompt_quality)]
         (1 # 10)%Q 10 ;;
     evaluacion_texto <- strip_content content ;;
     try_except
       (puntuacion <- int_of_text evaluacion_texto ;;
        if (1 <=? puntuacion) && (puntuacion <=? 10)
        then
          log (self_logger self) INFO
              ("Quality Agent: Puntuación " ++ str_int puntuacion ++ "/10") ;;;
          ret (str_int puntuacion)
        else
          log (self_logger self) ERROR
              "⚠️ Quality Agent: Puntuación fuera de rango, usando 5" ;;;
          ret "5")
       (fun _ =>
          log (self_logger self) ERROR
              "⚠️ Quality Agent: No se pudo extraer puntuación, usando 5" ;;;
          ret "5"))
    (fun e =>
       print ("❌ Error en PASO 3 - Quality Agent: " ++ str_exn e) ;;;
       log (self_logger self) WARNING
           ("Error en PASO 3 - Quality Agent: " ++ str_exn e) ;;;
       ret "5").

Definition procesar_consulta_completa (self : CupraRAGPipeline)
           (query : string) : M Resultado :=
  log (self_logger self) INFO "CUPRA RAG PIPELINE INICIADO" ;;;
  chunks_relevantes <- paso_1_rag self query 4 ;;
  respuesta_llm <- paso_2_llm self query chunks_relevantes ;;
  evaluacion_calidad <- paso_3_quality_agent self query respuesta_llm ;;
  timestamp <- _get_timestamp ;;
  ret (mkResultado query chunks_relevantes respuesta_llm evaluacion_calidad
                   timestamp "PostgreSQL").

End Pipeline.

(** ** app.py: the HTTP boundary *)

(** [HTTPException(status_code, detail)]; its [str] is
    ["<status_code>: <detail>"]. *)
Definition http_exception (status_code : Z) (detail : string) : exn :=
  PyExn "HTTPException" (str_int status_code ++ ": " ++ detail).

Definition is_http_exception (e : exn) : bool :=
  String.eqb (exn_class e) "HTTPException".

(** [try: body  except HTTPException: raise  except Exception as e: handler e] *)
Definition try_except_http {A : Type} (body : M A) (handler : exn -> M A)
  : M A :=
  try_except body
             (fun e => if is_http_exception e then raise e else handler e).

(** The ['respuesta_llm'] of a chat response: the context is left out. *)
Record RespuestaPublica : Type := mkRespuestaPublica {
  rp_respuesta : option string;
  rp_confianza : Q;
  rp_fuentes : list Fuente
}.

(** [ChatResponse], and the content of the degraded [JSONResponse]. *)
Record ChatResponse : Type := mkChatResponse {
  chat_success : bool;
  chat_query : string;
  chat_respuesta_llm : RespuestaPublica;
  chat_evaluacion_calidad : string;
  chat_chunks_recuperados : Z;
  chat_timestamp : string;
  chat_fuente : string
}.

Record HealthResponse : Type := mkHealthResponse {
  health_status : string;
  health_pipeline_available : bool;
  health_database_status : Salud;
  health_timestamp : string
}.

Record StatsResponse : Type := mkStatsResponse {
  stats_success : bool;
  stats_statistics : dict statval;
  stats_health : Salud;
  stats_timestamp : string
}.

Record TitleResponse : Type := mkTitleResponse {
  title_success : bool;
  title_titulo_buscado : string;
  title_resultados : list ChunkTitulo;
  title_total_encontrados : Z;
  title_timestamp : string
}.

Section App.

Variable host : Host.
Variable ilike : string -> string -> bool.

(** The module's logger: [initialize] always returns one. *)
Variable logger : Logger.

(** The module-level [try: pipeline = CupraRAGPipeline(logger=logger)
    except Exception as e: ...; pipeline = None]. *)
Definition app_pipeline : M (option CupraRAGPipeline) :=
  try_except
    (pipeline <- __init__ (Some logger) ;;
     ret (Some pipeline))
    (fun e =>
       log (Some logger) WARNING
           ("❌ Error inicializando pipeline: " ++ str_exn e) ;;;
       ret None).

(** [chat_endpoint]: the status code and the body. *)
Definition chat_endpoint (pipeline : option CupraRAGPipeline)
           (request_query : string) : M (Z * ChatResponse) :=
  try_except_http
    (match pipeline with
     | None =>
         now <- datetime_now ;;
         ret (503,
              mkChatResponse
                false request_query
                (mkRespuestaPublica
                   (Some "Servicio en modo degradado (DB no disponible).")
                   0%Q [])
                "5" 0 now "PostgreSQL")
     | Some pipeline =>
         let query := strip request_query in
         if is_empty query
         then raise (http_exception 400 "La consulta no puede estar vacía")
         else
           log (Some logger) INFO (" Nueva consulta recibida: " ++ query) ;;;
           resultado <- procesar_consulta_completa host pipeline query ;;
           let respuesta :=
             mkChatResponse
               true query
               (mkRespuestaPublica
                  (respuesta (respuesta_llm resultado))
                  (confianza (respuesta_llm resultado))
                  (fuentes (respuesta_llm resultado)))
               (evaluacion_calidad resultado)
               (Z.of_nat (List.length (chunks_recuperados resultado)))
               (timestamp resultado)
               "PostgreSQL" in
           log (Some logger) INFO
               ("Consulta procesada exitosamente - Confianza: "
                  ++ format_2f (confianza (respuesta_llm resultado))) ;;;
           ret (200, respuesta)
     end)
    (fun e =>
       log (Some logger) WARNING
           ("❌ Error procesando consulta: " ++ str_exn e) ;;;
       raise (http_exception
                500 ("Error interno procesando la consulta: " ++ str_exn e))).

(** [health_check].  [cupra_retriever] is an object, so the conditional
    expression always takes its first branch. *)
Definition health_check (pipeline : option CupraRAGPipeline)
  : M HealthResponse :=
  try_except
    (salud_bd <- verificar_salud_bd ;;
     let status :=
       if is_not_none pipeline && conexion_ok salud_bd
       then "ok" else "error" in
     now <- datetime_now ;;
     ret (mkHealthResponse status (is_not_none pipeline) salud_bd now))
    (fun e =>
       log (Some logger) WARNING ("❌ Error en health check: " ++ str_exn e) ;;;
       raise (http_exception
                500 ("Error verificando estado del sistema: " ++ str_exn e))).

Definition database_stats : M StatsResponse :=
  try_except
    (stats <- obtener_estadisticas_bd None ;;
     salud <- verificar_salud_bd ;;
     now <- datetime_now ;;
     ret (mkStatsResponse true stats salud now))
    (fun e =>
       log (Some logger) WARNING
           ("❌ Error obteniendo estadísticas: " ++ str_exn e) ;;;
       raise (http_exception
                500 ("Error obteniendo estadísticas: " ++ str_exn e))).

Definition search_by_title (titulo : string) (limit : Z) : M TitleResponse :=
  try_except_http
    (if is_empty (strip titulo)
     then raise (http_exception 400 "El título no puede estar vacío")
     else
       resultados <- buscar_por_titulo ilike (strip titulo) limit ;;
       now <- datetime_now ;;
       ret (mkTitleResponse true titulo resultados
                            (Z.of_nat (List.length resultados)) now))
    (fun e =>
       log (Some logger) WARNING
           ("❌ Error en búsqueda por título: " ++ str_exn e) ;;;
       raise (http_exception 500 ("Error en la búsqueda: " ++ str_exn e))).

End App.

(** ** services/config.py: the JSON log handler *)

Module JSONLogHandler.

(** The files the handler touches, by the number after the file's name:
    [0] is [filename] itself and [i] is [filename.i].  A file is the bytes
    it holds.  The file system is taken to answer. *)
Definition Files : Type := nat -> option string.

Record State : Type := mkState {
  files : Files;
  current_size : Z;
  max_bytes : Z;
  backup_count : Z
}.

(** [os.path.exists] *)
Definition exists_ (fs : Files) (i : nat) : bool :=
  match fs i with Some _ => true | None => false end.

Definition write (fs : Files) (i : nat) (v : option string) : Files :=
  fun j => if Nat.eqb j i then v else fs j.

(** [os.remove] *)
Definition remove (fs : Files) (i : nat) : Files := write fs i None.

(** [os.rename(old, new)] *)
Definition rename (fs : Files) (old new : nat) : Files :=
  write (write fs new (fs old)) old None.

(** [os.path.getsize] *)
Definition getsize (fs : Files) (i : nat) : Z :=
  match fs i with
  | Some bytes => Z.of_nat (String.length bytes)
  | None => 0
  end.

(** [open(filename, 'a').write(line)] *)
Definition append (fs : Files) (i : nat) (line : string) : Files :=
  write fs i (Some (match fs i with
                    | Some bytes => bytes ++ line
                    | None => line
                    end)).

(** [__init__]: the size starts at the size of the file, if there is one. *)
Definition init (fs : Files) (max_bytes backup_count : Z) : State :=
  mkState fs (if exists_ fs 0 then getsize fs 0 else 0) max_bytes backup_count.

Definition should_rollover (self : State) (message_size : Z) : bool :=
  current_size self + message_size >=? max_bytes self.

(** [range(n, 0, -1)] *)
Fixpoint range_down (n : nat) : list nat :=
  match n with
  | O => []
  | S m => S m :: range_down m
  end.

(** The body of the loop of [do_rollover]. *)
Definition rotate (fs : Files) (i : nat) : Files :=
  if exists_ fs i
  then rename (if exists_ fs (i + 1) then remove fs (i + 1) else fs) i (i + 1)
  else fs.

Definition do_rollover (self : State) : State :=
  if exists_ (files self) 0
  then
    let fs :=
      fold_left rotate (range_down (Z.to_nat (backup_count self - 1)))
                (files self) in
    let fs := if exists_ fs 1 then remove fs 1 else fs in
    mkState (rename fs 0 1) 0 (max_bytes self) (backup_count self)
  else self.

(** [emit], from the line [json.dumps(log_entry, ...) + '\n'] on. *)
Definition emit (self : State) (json_line : string) : State :=
  let size := Z.of_nat (String.length json_line) in
  let self := if should_rollover self size then do_rollover self else self in
  mkState (append (files self) 0 json_line) (current_size self + size)
          (max_bytes self) (backup_count self).

End JSONLogHandler.

(** ** Notions used to state the properties *)

(** A computation that returns normally from every world. *)
Definition returns {A : Type} (m : M A) : Prop :=
  forall w, exists w' a, m w = (w', Ret a).

(** The code never writes to the store nor changes how the collaborators
    behave: it only extends the trace, the log and the output. *)
Definition same_setting (w w' : World) : Prop :=
  db w' = db w /\ fault w' = fault w
  /\ embedding_reply w' = embedding_reply w
  /\ chat_reply w' = chat_reply w /\ clock w' = clock w.

Definition frame {A : Type} (m : M A) : Prop :=
  forall w w' o, m w = (w', o) -> same_setting w w'.

(** The text of a query is empty or made of whitespace only. *)
Fixpoint blank (s : string) : bool :=
  match s with
  | EmptyString => true
  | String c s' => isspace c && blank s'
  end.

(** The arithmetic mean of a list of numbers: their total over their
    count. *)
Definition total (xs : list Q) : Q := fold_right Qplus 0%Q xs.

Definition arithmetic_mean (xs : list Q) : Q :=
  (total xs / inject_Z (Z.of_nat (List.length xs)))%Q.

(** The fixed apology of the generation stage. *)
Definition apology : string :=
  "Lo siento, no encontré información relevante en el manual de CUPRA para responder tu consulta. ¿Podrías reformular tu pregunta o ser más específico?".

(** What the chat endpoint yields to a call made in world [w]. *)
Definition model_call (w : World) (messages : list (string * string))
  : outcome (option string) :=
  match fault w (List.length (trace w)) with
  | Some e => Raise e
  | None => Ret (chat_reply w (List.length (trace w)) messages)
  end.

Definition quality_messages (query : string) (respuesta_llm : RespuestaLLM)
  : list (string * string) :=
  [("system", system_quality);
   ("user", _crear_prompt_quality query respuesta_llm)].

(** Two sort keys of the nearest-neighbour query are tied. *)
Definition key_same (a b : option Q) : bool :=
  Sql.key_le a b && Sql.key_le b a.

(** The order of the nearest-neighbour query, on keyed rows. *)
Definition by_key (a b : option Q * Row) : Prop :=
  Sql.key_le (fst a) (fst b) = true.

(** What the search computes once it holds a query embedding and the store
    answers: a function of the store, the embedding and [k]. *)
Definition search_result (host : Host) (d : DbState) (query_embedding : list Q)
           (top_k : Z) : list Chunk :=
  match query_embedding with
  | [] => []
  | _ :: _ =>
      let lit := embedding_str host query_embedding in
      match Sql.nearest host lit lit top_k d with
      | Raise _ => []
      | Ret rows =>
          match chunks_of_rows rows [] with
          | Ret chunks => chunks
          | Raise _ => []
          end
      end
  end.

(** Chunks in descending order of similarity. *)
Definition ranked (chunks : list Chunk) : Prop :=
  StronglySorted (fun a b => (similitud b <= similitud a)%Q) chunks.

(** A chunk made from a row of the nearest-neighbour query. *)
Definition row_of_chunk (row : Row) (c : Chunk) : Prop :=
  row_similitud row = Some (similitud c) /\ chunk_id c = row_id row.

(** A keyed row made from a row of the table, its similarity one minus its
    key. *)
Definition keyed_from (ps : list Passage) (kr : option Q * Row) : Prop :=
  row_similitud (snd kr) = option_map (fun x => 1 - x)%Q (fst kr)
  /\ exists p, In p ps /\ row_id (snd kr) = p_id p.

(** The quality scores. *)
Definition scores : list string :=
  ["1"; "2"; "3"; "4"; "5"; "6"; "7"; "8"; "9"; "10"].

(** The table has an index whose name contains [embedding]. *)
Definition index_on_embedding (d : DbState) : bool :=
  match cupra_chunks d with
  | Some _ => existsb Sql.like_embedding (cupra_indexes d)
  | None => false
  end.

(** The order of the search by title, on rows of the table. *)
Definition by_char_count (a b : Passage) : Prop :=
  SqlTitulo.key_ge (p_char_count a) (p_char_count b) = true.

Definition chunk_of_passage (p : Passage) : ChunkTitulo :=
  chunk_of_row_titulo (SqlTitulo.row_of p).

(** The rows the search by title selects when the store answers. *)
Definition title_selection (ilike : string -> string -> bool)
           (titulo_busqueda : string) (limit : Z) (rows : list Passage)
  : list Passage :=
  firstn (Z.to_nat limit)
         (SqlTitulo.order_desc
            (filter (SqlTitulo.matches ilike ("%" ++ titulo_busqueda ++ "%"))
                    rows)).

(** The counter of the JSON log handler is the size of its file. *)
Definition tracks (self : JSONLogHandler.State) : Prop :=
  JSONLogHandler.current_size self
  = JSONLogHandler.getsize (JSONLogHandler.files self) 0.

(** ** A small store and two worlds, for running the code *)

Module Demo.

Definition host : Host :=
  mkHost "text-embedding-ada-002" "gpt-4o-mini"
         (fun x => str_int (Qnum x) ++ "/" ++ str_int (Zpos (Qden x)))
         (fun _ v =>
            match v with
            | x :: _ => Ret x
            | [] => Raise (PyExn "DataException" "different vector dimensions")
            end).

Definition asientos : Passage :=
  mkPassage 1 (Some "Ajuste de asientos") (Some "Palanca lateral.")
            (Some 16) (Some 0) (Some [(9 # 100)%Q]) (Some 10).

Definition sin_titulo : Passage :=
  mkPassage 2 None (Some "Otro texto.") None (Some 2)
            (Some [(1 # 2)%Q]) (Some 11).

Definition luces : Passage :=
  mkPassage 3 (Some "Luces") (Some "Mando giratorio.") (Some 16) None
            (Some [(9 # 100)%Q]) None.

Definition store : DbState :=
  mkDb true ["cupra_chunks_embedding_idx"] (Some [sin_titulo; asientos; luces]).

Definition empty_store : DbState := mkDb true [] (Some []).

Definition logger : Logger := mkLogger "cupra".

(** Every collaborator answers; the evaluator replies [" 8 "]. *)
Definition healthy : World :=
  mkWorld store (fun _ => None) (fun _ _ => [(1 # 2)%Q])
          (fun _ _ => Some " 8 ") (fun _ => "2025-01-01 00:00:00")
          [] [] [].

(** The same store seen later, by another run. *)
Definition later : World :=
  mkWorld store (fun _ => None) (fun _ _ => [(1 # 2)%Q])
          (fun _ _ => Some "10") (fun _ => "2025-01-02 00:00:00")
          [DatetimeNow] [(logger, INFO, "CUPRA Assistant API iniciada")] [].

(** The store cannot be reached. *)
Definition unreachable : World :=
  mkWorld store
          (fun _ => Some (PyExn "OperationalError" "connection refused"))
          (fun _ _ => []) (fun _ _ => None) (fun _ => "2025-01-01 00:00:00")
          [] [] [].

Definition empty_corpus : World :=
  mkWorld empty_store (fun _ => None) (fun _ _ => [(1 # 2)%Q])
          (fun _ _ => Some "7") (fun _ => "2025-01-01 00:00:00")
          [] [] [].

Definition pipeline : CupraRAGPipeline := mkPipeline (Some logger).

Definition chunk_a : Chunk :=
  mkChunk 1 "Ajuste de asientos" "Palanca lateral." (91 # 100)%Q 0 16 (Some 10).

Definition chunk_b : Chunk :=
  mkChunk 2 "Sin título" "Otro texto." (1 # 2)%Q 2 0 (Some 11).

End Demo.

(** ** More values to run the code on *)

Module DemoMore.

(** A stand-in for [ILIKE] on patterns [%text%]: the text between the two
    [%] occurs in the title, letter case apart for ASCII letters. *)
Definition lower (c : ascii) : ascii :=
  let n := nat_of_ascii c in
  if (65 <=? n)%nat && (n <=? 90)%nat then ascii_of_nat (n + 32) else c.

Fixpoint lower_string (s : string) : string :=
  match s with
  | EmptyString => EmptyString
  | String c s' => String (lower c) (lower_string s')
  end.

Definition ilike (text pattern : string) : bool :=
  let inner := substring 1 (String.length pattern - 2) pattern in
  match index 0 (lower_string inner) (lower_string text) with
  | Some _ => true
  | None => false
  end.

(** A log file of 5 bytes with one backup, under a limit of 10 bytes. *)
Definition log_files : JSONLogHandler.Files :=
  fun i =>
    match i with
    | O => Some "12345"
    | S O => Some "old"
    | _ => None
    end.

Definition handler : JSONLogHandler.State :=
  JSONLogHandler.init log_files 10 3.

End DemoMore.

(** ** Tactics that run the code *)

Ltac run :=
  cbv [bind try_except ret raise log print lift external self_logger
       strip_content int_of_text first_of first_column
       chat_completions_create embeddings_create
       _get_connection conn_cursor cur_execute cur_fetchone cur_fetchall
       cur_close conn_close _get_timestamp datetime_now].

Ltac with_logger self lg H :=
  destruct self as [?logger]; simpl in H; subst.

Ltac fields :=
  cbn [record_log record_call record_print
       db fault embedding_reply chat_reply clock trace logs stdout].

(** In a world where no external call raises. *)
Ltac quiet Hf := repeat (progress (fields; rewrite ?Hf; cbv beta iota)).

Ltac next_fault H :=
  match goal with
  | |- context [match fault ?w ?n with _ => _ end] =>
      destruct (fault w n) eqn:H; fields; cbv beta iota
  end.

Ltac done_empty :=
  let Hrun := fresh "Hrun" in intros Hrun _; inversion Hrun; reflexivity.

(** Closes [fault w n = None] when [n] lies among the calls that are known
    to have answered. *)
Ltac answered :=
  rewrite ?length_app in *; cbn [List.length] in *;
  repeat match goal with
         | H : fault ?w ?m = None |- fault ?w ?n = None =>
             first [ exact H
                   | destruct (Nat.eq_dec n m) as [->|?]; [exact H|]; clear H ]
         end;
  exfalso; lia.

Ltac done_left :=
  let Hrun := fresh "Hrun" in
  intros Hrun; inversion Hrun; left; reflexivity.

Ltac done_nothing :=
  let Hrun := fresh "Hrun" in
  intros Hrun; inversion Hrun; subst; split; [left; reflexivity|];
  intros _; reflexivity.

Ltac steps Hrows :=
  repeat first
    [ progress (fields; cbv beta iota; cbn [hd_error]; rewrite ?Hrows)
    | let H := fresh "Hf" in next_fault H; [done_nothing|] ].

(** * Properties *)

(** ** The built-ins on examples *)

Example strip_example : strip ("  8" ++ nl ++ " ") = "8".
Proof. reflexivity. Qed.

Example int_examples :
  map int ["8"; " 10 "; "+7"; "-3"; "1_0"; "07"; "8/10"; ""; "_1"; "1__0"; "- 5"]
  = [Some 8; Some 10; Some 7; Some (-3); Some 10; Some 7;
     None; None; None; None; None].
Proof. reflexivity. Qed.

Example format_2f_examples :
  map format_2f
      [(1 # 2)%Q; (91 # 100)%Q; (1 # 8)%Q; (3 # 8)%Q; (2 # 3)%Q; (-1 # 3)%Q]
  = ["0.50"; "0.91"; "0.12"; "0.38"; "0.67"; "-0.33"].
Proof. reflexivity. Qed.

Lemma lstrip_blank : forall s, blank s = true -> lstrip s = "".
Proof.
  induction s as [|c s IH]; simpl; intros H; [reflexivity|].
  apply andb_prop in H. destruct H as [Hc Hs].
  rewrite Hc. auto.
Qed.

Lemma strip_blank : forall s, blank s = true -> strip s = "".
Proof. intros s H. unfold strip. rewrite (lstrip_blank s H). reflexivity. Qed.

Lemma lstrip_not_blank : forall s, blank s = false -> lstrip s <> "".
Proof.
  induction s as [|c s IH]; simpl; intros H; [discriminate|].
  destruct (isspace c); simpl in H; [auto | discriminate].
Qed.

Lemma rstrip_empty : forall s, rstrip s = "" -> blank s = true.
Proof.
  induction s as [|c s IH]; simpl; intros H; [reflexivity|].
  destruct (isspace c); simpl in *; [|discriminate].
  destruct (rstrip s); simpl in *; [auto | discriminate].
Qed.

Lemma lstrip_head : forall s c r, lstrip s = String c r -> isspace c = false.
Proof.
  induction s as [|a s IH]; simpl; intros c r H; [discriminate|].
  destruct (isspace a) eqn:Ha; [eauto|].
  inversion H; subst. exact Ha.
Qed.

(** [strip] empties exactly the blank texts. *)
Lemma strip_empty_iff : forall s, strip s = "" <-> blank s = true.
Proof.
  intros s. split; [|apply strip_blank].
  unfold strip. intros H.
  destruct (blank s) eqn:Hb; [reflexivity|].
  apply rstrip_empty in H.
  destruct (lstrip s) as [|c r] eqn:Hl.
  - exfalso. exact (lstrip_not_blank s Hb Hl).
  - apply lstrip_head in Hl. simpl in H. rewrite Hl in H. discriminate.
Qed.

(** ** Running the monad *)

Lemma returns_ret : forall (A : Type) (a : A), returns (ret a).
Proof. intros A a w. exists w, a. reflexivity. Qed.

Lemma returns_log : forall lg l msg, returns (log (Some lg) l msg).
Proof. intros lg l msg w. eexists. exists tt. reflexivity. Qed.

Lemma returns_print : forall s, returns (print s).
Proof. intros s w. eexists. exists tt. reflexivity. Qed.

Lemma returns_bind :
  forall (A B : Type) (m : M A) (k : A -> M B),
    returns m -> (forall a, returns (k a)) -> returns (bind m k).
Proof.
  intros A B m k Hm Hk w. unfold bind.
  destruct (Hm w) as (w1 & a & ->). apply Hk.
Qed.

Lemma bind_Ret_inv :
  forall (A B : Type) (m : M A) (k : A -> M B) w w' b,
    bind m k w = (w', Ret b) ->
    exists w1 a, m w = (w1, Ret a) /\ k a w1 = (w', Ret b).
Proof.
  intros A B m k w w' b. unfold bind.
  destruct (m w) as [w1 [a|e]]; [eauto | discriminate].
Qed.

(** A [try] whose handler returns normally returns normally, whatever
    its body does. *)
Lemma returns_try_except :
  forall (A : Type) (body : M A) (handler : exn -> M A),
    (forall e, returns (handler e)) -> returns (try_except body handler).
Proof.
  intros A body handler Hh w. unfold try_except.
  destruct (body w) as [w1 [a|e]]; [eauto | apply Hh].
Qed.

Create HintDb returns.
#[local] Hint Resolve returns_ret returns_log returns_print : returns.
#[local] Hint Extern 2 (returns (bind _ _)) =>
  apply returns_bind; [|intros] : returns.
#[local] Hint Extern 2 (returns (try_except _ _)) =>
  apply returns_try_except; intros : returns.

(** ** The setting is never changed *)

Lemma same_setting_refl : forall w, same_setting w w.
Proof. intros w. repeat split. Qed.

Lemma same_setting_trans :
  forall w1 w2 w3, same_setting w1 w2 -> same_setting w2 w3 -> same_setting w1 w3.
Proof.
  intros w1 w2 w3 (A1 & A2 & A3 & A4 & A5) (B1 & B2 & B3 & B4 & B5).
  repeat split; congruence.
Qed.

Lemma frame_ret : forall (A : Type) (a : A), frame (ret a).
Proof. intros A a w w' o H. inversion H; subst. apply same_setting_refl. Qed.

Lemma frame_raise : forall (A : Type) e, frame (@raise A e).
Proof. intros A e w w' o H. inversion H; subst. apply same_setting_refl. Qed.

Lemma frame_lift : forall (A : Type) (o : outcome A), frame (lift o).
Proof. intros A o w w' o' H. inversion H; subst. apply same_setting_refl. Qed.

Lemma frame_log : forall logger l msg, frame (log logger l msg).
Proof.
  intros [lg|] l msg w w' o H; inversion H; subst; repeat split.
Qed.

Lemma frame_print : forall s, frame (print s).
Proof. intros s w w' o H. inversion H; subst. repeat split. Qed.

Lemma frame_external :
  forall (A : Type) c (answer : World -> nat -> outcome A),
    frame (external c answer).
Proof.
  intros A c answer w w' o. unfold external.
  destruct (fault w _); intros H; inversion H; subst; repeat split.
Qed.

Lemma frame_bind :
  forall (A B : Type) (m : M A) (k : A -> M B),
    frame m -> (forall a, frame (k a)) -> frame (bind m k).
Proof.
  intros A B m k Hm Hk w w' o. unfold bind.
  destruct (m w) as [w1 [a|e]] eqn:Hrun; intros H.
  - eapply same_setting_trans; [eapply Hm | eapply Hk]; eassumption.
  - inversion H; subst. eapply Hm; eassumption.
Qed.

Lemma frame_try_except :
  forall (A : Type) (body : M A) (handler : exn -> M A),
    frame body -> (forall e, frame (handler e)) ->
    frame (try_except body handler).
Proof.
  intros A body handler Hb Hh w w' o. unfold try_except.
  destruct (body w) as [w1 [a|e]] eqn:Hrun; intros H.
  - inversion H; subst. eapply Hb; eassumption.
  - eapply same_setting_trans; [eapply Hb | eapply Hh]; eassumption.
Qed.

Create HintDb frame.
#[local] Hint Resolve frame_ret frame_raise frame_lift frame_log frame_print
  frame_external : frame.
#[local] Hint Extern 2 (frame (bind _ _)) =>
  apply frame_bind; [|intros] : frame.
#[local] Hint Extern 2 (frame (try_except _ _)) =>
  apply frame_try_except; [|intros] : frame.
#[local] Hint Extern 3 (frame (match ?x with _ => _ end)) =>
  destruct x : frame.
#[local] Hint Extern 1 (frame (if ?x then _ else _)) =>
  destruct x : frame.

(** Python's left-to-right [sum] is the total. *)
Lemma fold_left_Qplus : forall xs a,
  (fold_left Qplus xs a == a + total xs)%Q.
Proof.
  induction xs as [|x xs IH]; intros a; simpl.
  - ring.
  - rewrite IH. ring.
Qed.

Lemma sum_total : forall xs, (Py.sum xs == total xs)%Q.
Proof. intros xs. unfold Py.sum. rewrite fold_left_Qplus. ring. Qed.

(** ** Generation stage *)

(** C1: called with no chunk, [paso_2_llm] returns the fixed apology with
    confidence [0], no source and no context, and the trace of external
    calls is unchanged: no model call is made. *)
Theorem paso_2_llm_sin_chunks :
  forall host self lg query w,
    self_logger self = Some lg ->
    exists w' r,
      paso_2_llm host self query [] w = (w', Ret r)
      /\ respuesta r = Some apology
      /\ confianza r = 0%Q
      /\ fuentes r = []
      /\ contexto_usado r = []
      /\ trace w' = trace w.
Proof.
  intros host self lg query w H. with_logger self lg H.
  unfold paso_2_llm. run.
  do 2 eexists. split; [reflexivity|]. repeat split.
Qed.

Lemma paso_2_llm_sin_chunks_witness :
  self_logger Demo.pipeline = Some Demo.logger
  /\ exists w' r,
      paso_2_llm Demo.host Demo.pipeline "hola" [] Demo.healthy = (w', Ret r)
      /\ respuesta r = Some apology
      /\ confianza r = 0%Q
      /\ fuentes r = []
      /\ contexto_usado r = []
      /\ trace w' = trace Demo.healthy.
Proof.
  split; [reflexivity|].
  exact (paso_2_llm_sin_chunks Demo.host Demo.pipeline Demo.logger "hola"
                               Demo.healthy eq_refl).
Defined.

(** C2: on a non-empty list of chunks, when the model call succeeds,
    [paso_2_llm] returns a result whose confidence is the arithmetic mean of
    the similarities and whose sources mirror the chunks: same length, and
    entry [i] carries the title, similarity, subchunk index and id of chunk
    [i]. *)
Theorem paso_2_llm_confianza_y_fuentes :
  forall host self lg query chunks w,
    self_logger self = Some lg ->
    chunks <> [] ->
    fault w (List.length (trace w)) = None ->
    exists w' r,
      paso_2_llm host self query chunks w = (w', Ret r)
      /\ (confianza r == arithmetic_mean (map similitud chunks))%Q
      /\ List.length (fuentes r) = List.length chunks
      /\ forall i chunk,
          nth_error chunks i = Some chunk ->
          nth_error (fuentes r) i
          = Some (mkFuente (titulo chunk) (similitud chunk)
                           (subchunk chunk) (chunk_id chunk)).
Proof.
  intros host self lg query chunks w H Hne Hf. with_logger self lg H.
  destruct chunks as [|c cs]; [contradiction|].
  unfold paso_2_llm. run.
  destruct w. cbn [record_log fault trace] in Hf |- *. rewrite Hf.
  do 2 eexists. split; [reflexivity|]. cbn [confianza fuentes].
  split; [|split].
  - unfold arithmetic_mean. rewrite sum_total, length_map. reflexivity.
  - apply length_map.
  - intros i chunk Hi. rewrite nth_error_map, Hi. reflexivity.
Qed.

Lemma paso_2_llm_confianza_y_fuentes_witness :
  exists w' r,
    paso_2_llm Demo.host Demo.pipeline "hola" [Demo.chunk_a; Demo.chunk_b]
               Demo.healthy = (w', Ret r)
    /\ (confianza r == (141 # 200))%Q
    /\ List.length (fuentes r) = 2%nat.
Proof.
  destruct (paso_2_llm_confianza_y_fuentes
              Demo.host Demo.pipeline Demo.logger "hola"
              [Demo.chunk_a; Demo.chunk_b] Demo.healthy eq_refl
              ltac:(discriminate) eq_refl)
    as (w' & r & Hrun & Hmean & Hlen & _).
  exists w', r. split; [exact Hrun|]. split; [|exact Hlen].
  rewrite Hmean. reflexivity.
Defined.

(** ** Quality evaluation stage *)



(** ** Store health check *)

Lemma returns_verificar_salud_bd : returns verificar_salud_bd.
Proof. unfold verificar_salud_bd. auto 10 with returns. Qed.

(** The mapping is the success mapping or the failure mapping. *)
Lemma verificar_salud_bd_shape :
  forall w w' s,
    verificar_salud_bd w = (w', Ret s) ->
    (conexion_ok s = true /\ error s = None)
    \/ (exists e, s = mkSalud false false false false (Some (str_exn e))).
Proof.
  intros w w' s. unfold verificar_salud_bd, try_except.
  match goal with |- context [match ?b w with _ => _ end] =>
    destruct (b w) as [w1 [a|e]] eqn:Hbody end.
  - intros Heq. inversion Heq; subst. left.
    repeat (apply bind_Ret_inv in Hbody;
            destruct Hbody as (? & ? & _ & Hbody); cbv zeta in Hbody).
    inversion Hbody; subst. split; reflexivity.
  - run. intros Heq. inversion Heq; subst. right. exists e. reflexivity.
Qed.



Example verificar_salud_bd_healthy :
  snd (verificar_salud_bd Demo.healthy)
  = Ret (mkSalud true true true true None).
Proof. reflexivity. Qed.

(** ** The nearest-neighbour query

    [ORDER BY] sorts the rows by distance, keeps all of them, and keeps
    tied rows in scan order. *)

Lemma key_le_total : forall a b, Sql.key_le a b = false -> Sql.key_le b a = true.
Proof.
  intros [x|] [y|]; simpl; try congruence.
  intros H. apply Qle_bool_iff.
  destruct (Qlt_le_dec y x) as [Hlt|Hle]; [apply Qlt_le_weak; exact Hlt|].
  apply Qle_bool_iff in Hle. congruence.
Qed.

Lemma key_le_trans :
  forall a b c, Sql.key_le a b = true -> Sql.key_le b c = true -> Sql.key_le a c = true.
Proof.
  intros [x|] [y|] [z|]; simpl; try congruence.
  rewrite !Qle_bool_iff. apply Qle_trans.
Qed.

Lemma insert_row_perm : forall x l, Permutation (x :: l) (Sql.insert_row x l).
Proof.
  induction l as [|y l IH]; simpl; [reflexivity|].
  destruct (Sql.key_le (fst x) (fst y)); [reflexivity|].
  rewrite perm_swap. constructor. exact IH.
Qed.

Lemma order_by_key_perm : forall l, Permutation l (Sql.order_by_key l).
Proof.
  induction l as [|x l IH]; simpl; [constructor|].
  rewrite <- insert_row_perm. constructor. exact IH.
Qed.

Lemma insert_row_sorted :
  forall x l, LocallySorted by_key l -> LocallySorted by_key (Sql.insert_row x l).
Proof.
  intros x l Hs. induction Hs as [|y|y z l Hs IH Hyz]; simpl.
  - constructor.
  - destruct (Sql.key_le (fst x) (fst y)) eqn:Hxy.
    + constructor; [constructor | exact Hxy].
    + constructor; [constructor | exact (key_le_total _ _ Hxy)].
  - destruct (Sql.key_le (fst x) (fst y)) eqn:Hxy.
    + constructor; [constructor; assumption | exact Hxy].
    + simpl in IH. destruct (Sql.key_le (fst x) (fst z)) eqn:Hxz.
      * constructor; [exact IH | exact (key_le_total _ _ Hxy)].
      * constructor; [exact IH | exact Hyz].
Qed.

Lemma order_by_key_sorted : forall l, LocallySorted by_key (Sql.order_by_key l).
Proof.
  induction l as [|x l IH]; simpl; [constructor|].
  apply insert_row_sorted. exact IH.
Qed.

(** Stability: the rows of any one key keep their scan order. *)
Lemma insert_row_stable :
  forall k x l,
    filter (fun r => key_same k (fst r)) (Sql.insert_row x l)
    = filter (fun r => key_same k (fst r)) (x :: l).
Proof.
  intros k x l. induction l as [|y l IH]; [reflexivity|].
  cbn [Sql.insert_row].
  destruct (Sql.key_le (fst x) (fst y)) eqn:Hxy; [reflexivity|].
  cbn [filter] in *. rewrite IH.
  destruct (key_same k (fst x)) eqn:Hkx; [|reflexivity].
  destruct (key_same k (fst y)) eqn:Hky; [|reflexivity].
  exfalso. unfold key_same in *.
  apply andb_prop in Hkx, Hky. destruct Hkx as [Hkx Hxk], Hky as [Hky Hyk].
  rewrite (key_le_trans _ _ _ Hxk Hky) in Hxy. discriminate.
Qed.

Lemma order_by_key_stable :
  forall k l,
    filter (fun r => key_same k (fst r)) (Sql.order_by_key l)
    = filter (fun r => key_same k (fst r)) l.
Proof.
  intros k l. induction l as [|x l IH]; [reflexivity|].
  cbn [Sql.order_by_key fold_right].
  rewrite insert_row_stable. cbn [filter].
  fold (Sql.order_by_key l). rewrite IH. reflexivity.
Qed.

(** ** Nearest-neighbour search *)

Lemma returns_buscar_chunks_similares :
  forall host query top_k lg,
    returns (buscar_chunks_similares host query top_k (Some lg)).
Proof. intros. unfold buscar_chunks_similares. auto with returns. Qed.

(** As the search calls it (with no logger), the embedding step does not
    degrade to an empty vector when the endpoint fails: its handler
    raises. *)
Lemma generar_embedding_query_without_logger :
  forall host query w e,
    blank query = false ->
    fault w (List.length (trace w)) = Some e ->
    snd (generar_embedding_query host query None w)
    = Raise (attribute_error_none "warning").
Proof.
  intros host query w e Hb He. unfold generar_embedding_query.
  assert (strip query <> "") as Hs
      by (intros Hs; apply strip_empty_iff in Hs; congruence).
  destruct query as [|c q]; [discriminate|].
  destruct (strip (String c q)) eqn:Hq; [contradiction|].
  cbn [is_empty orb]. run. rewrite He. reflexivity.
Qed.

(** With a logger the embedding step does degrade to an empty vector. *)
Lemma generar_embedding_query_degrades :
  forall host query lg w e,
    fault w (List.length (trace w)) = Some e ->
    snd (generar_embedding_query host query (Some lg) w) = Ret [].
Proof.
  intros host query lg w e He. unfold generar_embedding_query.
  destruct (is_empty query || is_empty (strip query)); [reflexivity|].
  run. rewrite He. reflexivity.
Qed.

(** C6, on the code: called with its default [logger=None], the search
    raises [AttributeError] to its caller, for every query, every [k] and
    every behaviour of the collaborators. *)
Theorem buscar_chunks_similares_without_logger :
  forall host query top_k w,
    buscar_chunks_similares host query top_k None w
    = (w, Raise (attribute_error_none "error")).
Proof. intros host query top_k w. reflexivity. Qed.

(** When the collaborators answer, the search is [search_result]. *)
Lemma buscar_chunks_similares_quiet :
  forall host query top_k lg w query_embedding,
    (forall n, fault w n = None) ->
    snd (generar_embedding_query host query None w) = Ret query_embedding ->
    snd (buscar_chunks_similares host query top_k (Some lg) w)
    = Ret (search_result host (db w) query_embedding top_k).
Proof.
  intros host query top_k lg w emb Hf He. revert He.
  unfold buscar_chunks_similares, generar_embedding_query.
  destruct (is_empty query || is_empty (strip query)).
  - run. quiet Hf. cbn [snd]. intros He; inversion He; subst. reflexivity.
  - run. quiet Hf. cbn [snd]. intros He; inversion He as [He'].
    destruct (embedding_reply w _ _) as [|x xs]; [reflexivity|].
    quiet Hf. unfold search_result.
    destruct (Sql.nearest _ _ _ _ _) as [rows|e]; [|reflexivity].
    quiet Hf. destruct (chunks_of_rows rows []) as [cs|e]; [|reflexivity].
    quiet Hf. reflexivity.
Qed.

(** Given a logger, the search returns the empty list whenever one of the
    external calls it made raised: the embedding call, or any call to the
    store. *)
Lemma buscar_chunks_similares_failure :
  forall host query top_k lg w w' chunks,
    buscar_chunks_similares host query top_k (Some lg) w = (w', Ret chunks) ->
    (exists n, (List.length (trace w) <= n < List.length (trace w'))%nat
               /\ fault w n <> None) ->
    chunks = [].
Proof.
  intros host query top_k lg w w' chunks.
  unfold buscar_chunks_similares, generar_embedding_query.
  destruct (is_empty query || is_empty (strip query)).
  - run. fields. done_empty.
  - run. fields. cbv beta iota.
    next_fault Hf0; [done_empty|].
    destruct (embedding_reply w _ _) as [|x xs]; [done_empty|].
    fields. cbv beta iota.
    next_fault Hf1; [done_empty|].
    next_fault Hf2; [done_empty|].
    next_fault Hf3; [done_empty|].
    destruct (Sql.nearest _ _ _ _ _) as [rows|e]; fields; cbv beta iota;
      [|done_empty].
    next_fault Hf4; [done_empty|].
    destruct (chunks_of_rows rows []) as [cs|e]; fields; cbv beta iota;
      [|done_empty].
    next_fault Hf5; [done_empty|].
    next_fault Hf6; [done_empty|].
    intros Hrun (n & Hn & Hbad). exfalso. apply Hbad.
    inversion Hrun; subst w'. clear Hrun.
    revert Hn. fields. rewrite !length_app in *. cbn [List.length] in *.
    intros Hn.
    set (L := List.length (trace w)) in *.
    assert (n = L \/ n = L + 1 \/ n = L + 1 + 1 \/ n = L + 1 + 1 + 1
            \/ n = L + 1 + 1 + 1 + 1 \/ n = L + 1 + 1 + 1 + 1 + 1
            \/ n = L + 1 + 1 + 1 + 1 + 1 + 1)%nat as Hcases by lia.
    repeat (destruct Hcases as [->|Hcases]; [assumption|]).
    subst n; assumption.
Qed.



Example buscar_chunks_similares_demo :
  match snd (buscar_chunks_similares Demo.host "asientos" 4
                                     (Some Demo.logger) Demo.healthy) with
  | Ret chunks => map (fun c => (chunk_id c, similitud c)) chunks
  | Raise _ => []
  end
  = [(1, (91 # 100)%Q); (3, (91 # 100)%Q); (2, (1 # 2)%Q)].
Proof. vm_compute. reflexivity. Qed.

Lemma frame_buscar_chunks_similares :
  forall host query top_k logger,
    frame (buscar_chunks_similares host query top_k logger).
Proof.
  intros. unfold buscar_chunks_similares, generar_embedding_query,
    _get_connection, conn_cursor, cur_execute, cur_fetchall, cur_close,
    conn_close, embeddings_create.
  auto 20 with frame.
Qed.

(** Calling the search again, in the world the first call left, gives the
    same chunks when the query gets the same embedding. *)
Lemma buscar_chunks_similares_repeated :
  forall host query top_k lg w w' chunks query_embedding,
    (forall n, fault w n = None) ->
    snd (generar_embedding_query host query None w) = Ret query_embedding ->
    buscar_chunks_similares host query top_k (Some lg) w = (w', Ret chunks) ->
    snd (generar_embedding_query host query None w') = Ret query_embedding ->
    snd (buscar_chunks_similares host query top_k (Some lg) w') = Ret chunks.
Proof.
  intros host query top_k lg w w' chunks emb Hf He Hrun He'.
  destruct (frame_buscar_chunks_similares host query top_k (Some lg)
                                          w w' _ Hrun)
    as (Hdb & Hfault & _).
  pose proof (buscar_chunks_similares_quiet host query top_k lg w emb Hf He)
    as H1.
  rewrite Hrun in H1. cbn [snd] in H1.
  rewrite (buscar_chunks_similares_quiet host query top_k lg w' emb);
    [rewrite Hdb; symmetry; exact H1 | | exact He'].
  intros n. rewrite Hfault. apply Hf.
Qed.

(** ** Pipeline construction *)

(** The statistics, as [__init__] asks for them (with no logger): they come
    back only when every call to the store answered, and then
    ['total_chunks'] is the number of rows of the table. *)
Lemma obtener_estadisticas_bd_total_chunks :
  forall w w' stats,
    obtener_estadisticas_bd None w = (w', Ret stats) ->
    exists rows,
      cupra_chunks (db w) = Some rows
      /\ dict_get stats "total_chunks"
         = Some (SInt (Z.of_nat (List.length rows))).
Proof.
  intros w w' stats.
  unfold obtener_estadisticas_bd, queries, collect_stats. run. fields.
  cbv [Sql.count Sql.distinct_titles Sql.avg_chars Sql.last_insert Sql.table].
  destruct (cupra_chunks (db w)) as [rows|] eqn:Hrows.
  - repeat first
      [ progress (fields; cbv beta iota; cbn [hd_error]; rewrite ?Hrows)
      | let H := fresh "Hf" in next_fault H; [discriminate|] ].
    intros Hrun. inversion Hrun; subst. exists rows. split; reflexivity.
  - repeat first
      [ progress (fields; cbv beta iota; cbn [hd_error]; rewrite ?Hrows)
      | let H := fresh "Hf" in next_fault H; [discriminate|] ].
    discriminate.
Qed.

(** C4: [__init__] raises when the health check reports the connection not
    ok; it raises when the statistics report ['total_chunks'] as [0] or do
    not hold it, and when they cannot be read at all; it returns the
    pipeline when the connection is ok and ['total_chunks'] is positive. *)
Theorem init_gate :
  forall logger w w1 salud_bd,
    verificar_salud_bd w = (w1, Ret salud_bd) ->
    (conexion_ok salud_bd = false ->
     exists e, __init__ logger w = (w1, Raise e))
    /\ (conexion_ok salud_bd = true ->
        forall w2 stats,
          obtener_estadisticas_bd None w1 = (w2, Ret stats) ->
          dict_get stats "total_chunks" = None
          \/ dict_get stats "total_chunks" = Some (SInt 0) ->
          exists e, __init__ logger w = (w2, Raise e))
    /\ (conexion_ok salud_bd = true ->
        forall w2 e,
          obtener_estadisticas_bd None w1 = (w2, Raise e) ->
          __init__ logger w = (w2, Raise e))
    /\ (conexion_ok salud_bd = true ->
        forall w2 stats n,
          obtener_estadisticas_bd None w1 = (w2, Ret stats) ->
          dict_get stats "total_chunks" = Some (SInt n) ->
          0 < n ->
          __init__ logger w = (w2, Ret (mkPipeline logger))).
Proof.
  intros logger w w1 salud_bd Hsalud.
  unfold __init__, bind. rewrite Hsalud.
  repeat split.
  - intros Hok. rewrite Hok. cbn [negb]. eexists. reflexivity.
  - intros Hok w2 stats Hstats Hzero. rewrite Hok. cbn [negb]. cbv beta.
    rewrite Hstats. unfold dict_get_default.
    destruct Hzero as [-> | ->]; eexists; reflexivity.
  - intros Hok w2 e Hstats. rewrite Hok. cbn [negb]. cbv beta.
    rewrite Hstats. reflexivity.
  - intros Hok w2 stats n Hstats Hn Hpos. rewrite Hok. cbn [negb]. cbv beta.
    rewrite Hstats. unfold dict_get_default. rewrite Hn. cbn [equals_zero].
    destruct (Z.eqb_spec n 0); [lia | reflexivity].
Qed.

Lemma init_gate_witness :
  (exists w' e,
      __init__ (Some Demo.logger) Demo.unreachable = (w', Raise e))
  /\ (exists w' e,
         __init__ (Some Demo.logger) Demo.empty_corpus = (w', Raise e))
  /\ (exists w',
         __init__ (Some Demo.logger) Demo.healthy = (w', Ret Demo.pipeline)).
Proof.
  split; [|split].
  - assert (verificar_salud_bd Demo.unreachable
            = (fst (verificar_salud_bd Demo.unreachable),
               Ret (mkSalud false false false false
                            (Some "connection refused")))) as Hsalud
        by (vm_compute; reflexivity).
    destruct (proj1 (init_gate (Some Demo.logger) _ _ _ Hsalud) eq_refl)
      as [e He].
    eauto.
  - assert (verificar_salud_bd Demo.empty_corpus
            = (fst (verificar_salud_bd Demo.empty_corpus),
               Ret (mkSalud true true false true None))) as Hsalud
        by (vm_compute; reflexivity).
    assert (obtener_estadisticas_bd
              None (fst (verificar_salud_bd Demo.empty_corpus))
            = (fst (obtener_estadisticas_bd
                      None (fst (verificar_salud_bd Demo.empty_corpus))),
               Ret [("total_chunks", SInt 0); ("titulos_unicos", SInt 0);
                    ("promedio_caracteres", SNone);
                    ("ultimo_ingreso", SNone)])) as Hstats
        by (vm_compute; reflexivity).
    destruct (proj1 (proj2 (init_gate (Some Demo.logger) _ _ _ Hsalud))
                    eq_refl _ _ Hstats (or_intror eq_refl))
      as [e He].
    eauto.
  - assert (verificar_salud_bd Demo.healthy
            = (fst (verificar_salud_bd Demo.healthy),
               Ret (mkSalud true true true true None))) as Hsalud
        by (vm_compute; reflexivity).
    assert (obtener_estadisticas_bd
              None (fst (verificar_salud_bd Demo.healthy))
            = (fst (obtener_estadisticas_bd
                      None (fst (verificar_salud_bd Demo.healthy))),
               Ret [("total_chunks", SInt 3); ("titulos_unicos", SInt 2);
                    ("promedio_caracteres", SDecimal (32 # 2));
                    ("ultimo_ingreso", STimestamp 11)])) as Hstats
        by (vm_compute; reflexivity).
    eexists.
    exact (proj2 (proj2 (proj2 (init_gate (Some Demo.logger) _ _ _ Hsalud)))
                 eq_refl _ _ 3 Hstats eq_refl eq_refl).
Defined.

Example init_demo :
  map (fun w => snd (__init__ (Some Demo.logger) w))
      [Demo.unreachable; Demo.empty_corpus; Demo.healthy]
  = [Raise (PyExn "Exception"
              "❌ No se puede conectar a la base de datos PostgreSQL");
     Raise (PyExn "Exception" "❌ No hay chunks en la base de datos");
     Ret Demo.pipeline].
Proof. reflexivity. Qed.

(** X15: a store that answers: construction succeeds exactly when the table
    holds at least one row. *)
Lemma init_on_store :
  forall logger w rows,
    (forall n, fault w n = None) ->
    cupra_chunks (db w) = Some rows ->
    (rows = [] ->
     snd (__init__ logger w)
     = Raise (PyExn "Exception" "❌ No hay chunks en la base de datos"))
    /\ (rows <> [] -> snd (__init__ logger w) = Ret (mkPipeline logger)).
Proof.
  intros logger w rows Hf Hrows.
  unfold __init__, verificar_salud_bd, obtener_estadisticas_bd, queries,
    collect_stats.
  run. cbv [Sql.extension Sql.table_exists Sql.vector_index
            Sql.count Sql.distinct_titles Sql.avg_chars Sql.last_insert
            Sql.table].
  repeat (progress (fields; rewrite ?Hf, ?Hrows; cbv beta iota;
                    cbn [hd_error negb conexion_ok])).
  unfold dict_get_default.
  cbn [dict_set dict_get String.eqb Ascii.eqb Bool.eqb equals_zero snd].
  split; intros Hr.
  - subst rows. reflexivity.
  - destruct rows as [|p ps]; [contradiction | reflexivity].
Qed.

(** ** The stages, given a logger *)

Lemma returns_busqueda_cupra_chunks :
  forall host query top_k logger,
    returns (busqueda_cupra_chunks host query top_k logger).
Proof. intros. unfold busqueda_cupra_chunks. auto with returns. Qed.

Lemma returns_paso_1_rag :
  forall host self lg query top_k,
    self_logger self = Some lg -> returns (paso_1_rag host self query top_k).
Proof.
  intros host self lg query top_k H. with_logger self lg H.
  unfold paso_1_rag. cbn [self_logger]. auto with returns.
Qed.

Lemma returns_paso_2_llm :
  forall host self lg query chunks,
    self_logger self = Some lg -> returns (paso_2_llm host self query chunks).
Proof.
  intros host self lg query chunks H. with_logger self lg H.
  unfold paso_2_llm. cbn [self_logger].
  destruct chunks; auto 6 with returns.
Qed.

(** The score is always one of ["1"] .. ["10"], and the stage makes one
    external call, to the chat endpoint. *)
Lemma paso_3_quality_agent_total :
  forall host self lg query respuesta_llm w,
    self_logger self = Some lg ->
    exists w' n,
      paso_3_quality_agent host self query respuesta_llm w
      = (w', Ret (str_int n))
      /\ 1 <= n <= 10
      /\ trace w'
         = (trace w
              ++ [ChatCreate (MODEL_GPT host)
                             (quality_messages query respuesta_llm)
                             (1 # 10)%Q 10])%list.
Proof.
  intros host self lg query respuesta_llm w H. with_logger self lg H.
  unfold paso_3_quality_agent. run. fields.
  destruct (fault w (List.length (trace w))) as [e0|];
    [eexists; exists 5; split; [reflexivity | split; [lia | reflexivity]]|].
  destruct (chat_reply w _ _) as [content|];
    [|eexists; exists 5; split; [reflexivity | split; [lia | reflexivity]]].
  destruct (int (strip content)) as [n|];
    [|eexists; exists 5; split; [reflexivity | split; [lia | reflexivity]]].
  destruct ((1 <=? n) && (n <=? 10)) eqn:Hn.
  - apply andb_prop in Hn.
    eexists; exists n; split; [reflexivity | split; [lia | reflexivity]].
  - eexists; exists 5; split; [reflexivity | split; [lia | reflexivity]].
Qed.

Lemma returns_paso_3_quality_agent :
  forall host self lg query respuesta_llm,
    self_logger self = Some lg ->
    returns (paso_3_quality_agent host self query respuesta_llm).
Proof.
  intros host self lg query respuesta_llm H w.
  destruct (paso_3_quality_agent_total host self lg query respuesta_llm w H)
    as (w' & n & Hrun & _).
  eauto.
Qed.

(** A failed model call in the generation stage becomes an answer that
    describes the error, with confidence [0] and no source. *)
Lemma paso_2_llm_failure :
  forall host self lg query chunks w e,
    self_logger self = Some lg ->
    chunks <> [] ->
    fault w (List.length (trace w)) = Some e ->
    snd (paso_2_llm host self query chunks w)
    = Ret (mkRespuestaLLM (Some ("Error generando respuesta: " ++ str_exn e))
                          [] 0%Q []).
Proof.
  intros host self lg query chunks w e H Hne Hf. with_logger self lg H.
  destruct chunks as [|c cs]; [contradiction|].
  unfold paso_2_llm. run. fields. rewrite Hf. reflexivity.
Qed.

(** The retrieval stage hands on what the search returned. *)
Lemma paso_1_rag_is_search :
  forall host self lg query top_k w w' chunks,
    self_logger self = Some lg ->
    paso_1_rag host self query top_k w = (w', Ret chunks) ->
    exists w0 w1,
      buscar_chunks_similares host query top_k (Some lg) w0 = (w1, Ret chunks)
      /\ trace w0 = trace w /\ fault w0 = fault w /\ trace w' = trace w1.
Proof.
  intros host self lg query top_k w w' chunks H. with_logger self lg H.
  unfold paso_1_rag, busqueda_cupra_chunks. run.
  match goal with
  | |- context [buscar_chunks_similares ?h ?q ?k ?l ?w0] =>
      destruct (returns_buscar_chunks_similares h q k lg w0)
        as (w1 & cs & Hrun);
      rewrite Hrun; intros Hp; exists w0, w1
  end.
  destruct cs; inversion Hp; subst; repeat split; exact Hrun.
Qed.

(** A failed embedding call or store call in the retrieval stage becomes
    the empty list of chunks. *)
Lemma paso_1_rag_failure :
  forall host self lg query top_k w w' chunks,
    self_logger self = Some lg ->
    paso_1_rag host self query top_k w = (w', Ret chunks) ->
    (exists n, (List.length (trace w) <= n < List.length (trace w'))%nat
               /\ fault w n <> None) ->
    chunks = [].
Proof.
  intros host self lg query top_k w w' chunks H Hrun (n & Hn & Hbad).
  destruct (paso_1_rag_is_search host self lg query top_k w w' chunks H Hrun)
    as (w0 & w1 & Hs & Ht0 & Hf0 & Ht1).
  apply (buscar_chunks_similares_failure host query top_k lg w0 w1 chunks Hs).
  exists n. rewrite Ht0, <- Ht1, Hf0. split; assumption.
Qed.

(** Given a logger, [procesar_consulta_completa] returns a result from
    every world. *)
Lemma returns_procesar_consulta_completa :
  forall host self lg query,
    self_logger self = Some lg ->
    returns (procesar_consulta_completa host self query).
Proof.
  intros host self lg query H. unfold procesar_consulta_completa.
  apply returns_bind; [rewrite H; apply returns_log | intros _].
  apply returns_bind; [eapply returns_paso_1_rag; eassumption | intros chunks].
  apply returns_bind; [eapply returns_paso_2_llm; eassumption | intros ans].
  apply returns_bind;
    [eapply returns_paso_3_quality_agent; eassumption | intros score].
  apply returns_bind; [|intros ts; apply returns_ret].
  intros w. do 2 eexists. reflexivity.
Qed.

(** A run of the pipeline leaves the store and the collaborators as they
    were: nothing is kept from one query to the next but the trace, the log
    and the output. *)
Lemma frame_procesar_consulta_completa :
  forall host self query,
    frame (procesar_consulta_completa host self query).
Proof.
  intros host self query.
  assert (frame _get_timestamp) as Htime
      by (intros w w' o H; inversion H; subst; repeat split).
  unfold procesar_consulta_completa.
  apply frame_bind; [apply frame_log | intros _].
  apply frame_bind; [|intros chunks].
  { unfold paso_1_rag, busqueda_cupra_chunks.
    pose proof (frame_buscar_chunks_similares host query 4 (self_logger self)).
    auto 20 with frame. }
  apply frame_bind; [|intros answer].
  { unfold paso_2_llm, chat_completions_create. auto 20 with frame. }
  apply frame_bind; [|intros score].
  { unfold paso_3_quality_agent, chat_completions_create, strip_content,
      int_of_text.
    auto 20 with frame. }
  apply frame_bind; [exact Htime | intros time; apply frame_ret].
Qed.

(** ** The orchestrator *)

(** C7, on the code: a pipeline constructed without a logger (the default
    of [__init__], and what [main] does) raises [AttributeError] from
    [procesar_consulta_completa], for every query and every behaviour of
    the collaborators. *)
Theorem procesar_consulta_completa_without_logger :
  forall host query w,
    procesar_consulta_completa host (mkPipeline None) query w
    = (w, Raise (attribute_error_none "info")).
Proof. intros host query w. reflexivity. Qed.

(** C9: the result of [procesar_consulta_completa] holds the query, the
    chunks of stage 1, the answer of stage 2 on those chunks, the score of
    stage 3 on that answer, the time read after the three stages, and the
    label ['PostgreSQL']. *)
Theorem procesar_consulta_completa_aggregates :
  forall host self lg query w,
    self_logger self = Some lg ->
    exists w1 chunks w2 answer w3 score w4 time,
      paso_1_rag host self query 4
                 (record_log (lg, INFO, "CUPRA RAG PIPELINE INICIADO") w)
      = (w1, Ret chunks)
      /\ paso_2_llm host self query chunks w1 = (w2, Ret answer)
      /\ paso_3_quality_agent host self query answer w2 = (w3, Ret score)
      /\ _get_timestamp w3 = (w4, Ret time)
      /\ procesar_consulta_completa host self query w
         = (w4, Ret (mkResultado query chunks answer score time "PostgreSQL")).
Proof.
  intros host self lg query w H.
  destruct (returns_paso_1_rag host self lg query 4 H
              (record_log (lg, INFO, "CUPRA RAG PIPELINE INICIADO") w))
    as (w1 & chunks & H1).
  destruct (returns_paso_2_llm host self lg query chunks H w1)
    as (w2 & answer & H2).
  destruct (returns_paso_3_quality_agent host self lg query answer H w2)
    as (w3 & score & H3).
  exists w1, chunks, w2, answer, w3, score,
         (record_call DatetimeNow w3), (clock w3 (List.length (trace w3))).
  repeat split; try assumption.
  unfold procesar_consulta_completa.
  unfold bind at 1. rewrite H. unfold log at 1.
  unfold bind at 1. rewrite H1.
  unfold bind at 1. rewrite H2.
  unfold bind at 1. rewrite H3.
  reflexivity.
Qed.

Lemma procesar_consulta_completa_aggregates_witness :
  self_logger Demo.pipeline = Some Demo.logger
  /\ exists w' chunks answer score time,
      procesar_consulta_completa Demo.host Demo.pipeline "asientos"
                                 Demo.healthy
      = (w', Ret (mkResultado "asientos" chunks answer score time
                              "PostgreSQL")).
Proof.
  split; [reflexivity|].
  destruct (procesar_consulta_completa_aggregates
              Demo.host Demo.pipeline Demo.logger "asientos" Demo.healthy
              eq_refl)
    as (w1 & chunks & w2 & answer & w3 & score & w4 & time & _ & _ & _ & _
        & Hrun).
  exists w4, chunks, answer, score, time. exact Hrun.
Defined.



(** * Further properties *)

(** ** The embedding step and the two searches *)



Lemma chunks_of_rows_spec :
  forall rows acc cs,
    chunks_of_rows rows acc = Ret cs ->
    exists cs', cs = (acc ++ cs')%list /\ Forall2 row_of_chunk rows cs'.
Proof.
  induction rows as [|row rows IH]; intros acc cs H; simpl in H.
  - inversion H; subst. exists []. rewrite app_nil_r. split; constructor.
  - unfold chunk_of_row, float_of_column in H.
    destruct (row_similitud row) as [s|] eqn:Hs; [|discriminate].
    apply IH in H. destruct H as (cs' & -> & Hall).
    eexists (_ :: cs'). rewrite <- app_assoc. split; [reflexivity|].
    constructor; [|exact Hall]. split; [exact Hs | reflexivity].
Qed.

Lemma keyed_rows_spec :
  forall h lit ps rs,
    Sql.keyed_rows h lit lit ps = Ret rs -> Forall (keyed_from ps) rs.
Proof.
  intros h lit ps. induction ps as [|p ps IH]; intros rs H; simpl in H.
  - inversion H. constructor.
  - unfold Sql.keyed_row in H.
    destruct (Sql.distance h lit p) as [d|e]; [|discriminate].
    destruct (Sql.keyed_rows h lit lit ps) as [rs'|e]; [|discriminate].
    inversion H; subst. constructor.
    + split; [reflexivity|]. exists p. split; [left; reflexivity | reflexivity].
    + eapply Forall_impl; [|apply IH; reflexivity].
      intros kr (Hs & q & Hq & Hid). split; [exact Hs|].
      exists q. split; [right; exact Hq | exact Hid].
Qed.

Lemma by_key_trans : forall a b c, by_key a b -> by_key b c -> by_key a c.
Proof. intros a b c. unfold by_key. apply key_le_trans. Qed.

Lemma order_by_key_strongly_sorted :
  forall l, StronglySorted by_key (Sql.order_by_key l).
Proof.
  intros l. apply Sorted_StronglySorted; [exact by_key_trans|].
  apply Sorted_LocallySorted_iff. apply order_by_key_sorted.
Qed.

Lemma In_firstn :
  forall (A : Type) n (l : list A) x, In x (firstn n l) -> In x l.
Proof.
  intros A n. induction n as [|n IH]; intros l x H; [contradiction|].
  destruct l as [|y l]; [contradiction|].
  destruct H as [->|H]; [left; reflexivity | right; auto].
Qed.

Lemma StronglySorted_firstn :
  forall (A : Type) (R : A -> A -> Prop) n l,
    StronglySorted R l -> StronglySorted R (firstn n l).
Proof.
  intros A R n. induction n as [|n IH]; intros l Hs; [constructor|].
  destruct l as [|x l]; [constructor|]. simpl.
  inversion Hs; subst. constructor; [auto|].
  apply Forall_forall. intros y Hy.
  eapply Forall_forall; [eassumption|]. eapply In_firstn; exact Hy.
Qed.

Lemma Forall_firstn' :
  forall (A : Type) (P : A -> Prop) n l, Forall P l -> Forall P (firstn n l).
Proof.
  intros A P n l H. apply Forall_forall. intros x Hx.
  eapply Forall_forall; [exact H|]. eapply In_firstn; exact Hx.
Qed.

Lemma ranked_of_keyed :
  forall ps krs cs,
    StronglySorted by_key krs ->
    Forall (keyed_from ps) krs ->
    Forall2 row_of_chunk (map snd krs) cs ->
    ranked cs
    /\ Forall (fun c => exists p, In p ps /\ chunk_id c = p_id p) cs.
Proof.
  intros ps krs. induction krs as [|kr krs IH]; intros cs Hs Hk H2;
    inversion H2 as [|row c rows cs' Hrc Hrest]; subst.
  - split; constructor.
  - inversion Hs as [|? ? Hs' Hle]; subst.
    inversion Hk as [|? ? Hkr Hk']; subst.
    destruct (IH cs' Hs' Hk' Hrest) as (Hranked & Hfrom).
    destruct Hrc as (Hsim & Hid). destruct Hkr as (Hd & p & Hp & Hpid).
    split.
    + constructor; [exact Hranked|].
      clear IH Hranked Hfrom Hs Hk H2 Hs'.
      revert cs' Hrest Hle Hk'.
      induction krs as [|kr' krs IH']; intros cs' Hrest Hle Hk';
        inversion Hrest as [|row' c' ? cs'' Hrc' Hrest']; subst;
        constructor.
      * inversion Hle as [|? ? Hkk Hle']; subst.
        inversion Hk' as [|? ? Hkr' Hk'']; subst.
        destruct Hrc' as (Hsim' & _). destruct Hkr' as (Hd' & _).
        rewrite Hsim in Hd. rewrite Hsim' in Hd'.
        unfold by_key in Hkk.
        destruct (fst kr) as [d|]; [|discriminate].
        destruct (fst kr') as [d'|]; [|discriminate].
        simpl in Hd, Hd', Hkk.
        injection Hd as ->. injection Hd' as ->.
        apply Qle_bool_iff in Hkk. lra.
      * inversion Hle; subst. inversion Hk'; subst. eapply IH'; eassumption.
    + constructor; [|exact Hfrom].
      exists p. split; [exact Hp | congruence].
Qed.

Lemma search_result_ranked :
  forall host d emb top_k,
    let chunks := search_result host d emb top_k in
    (List.length chunks <= Z.to_nat top_k)%nat
    /\ ranked chunks
    /\ forall c, In c chunks ->
         exists rows p,
           cupra_chunks d = Some rows /\ In p rows /\ chunk_id c = p_id p.
Proof.
  intros host d emb top_k. unfold search_result.
  assert (forall k, (List.length (@nil Chunk) <= k)%nat /\ ranked []
            /\ forall c, In c (@nil Chunk) ->
                 exists rows p,
                   cupra_chunks d = Some rows /\ In p rows /\ chunk_id c = p_id p)
    as Hnil.
  { intros k. split; [simpl; lia|]. split; [constructor | intros c []]. }
  destruct emb as [|x xs]; [apply Hnil|].
  cbv zeta. unfold Sql.nearest, Sql.table.
  destruct (cupra_chunks d) as [ps|] eqn:Hps; [|apply Hnil].
  destruct (Sql.keyed_rows _ _ _ ps) as [rs|e] eqn:Hrs; [|apply Hnil].
  destruct (top_k <? 0); [apply Hnil|].
  destruct (chunks_of_rows _ []) as [cs|e] eqn:Hcs; [|apply Hnil].
  apply chunks_of_rows_spec in Hcs. destruct Hcs as (cs' & -> & H2).
  cbn [app]. rewrite firstn_map in H2.
  destruct (ranked_of_keyed ps (firstn (Z.to_nat top_k) (Sql.order_by_key rs))
                            cs')
    as (Hranked & Hfrom); [| |exact H2|].
  - apply StronglySorted_firstn, order_by_key_strongly_sorted.
  - apply Forall_firstn'.
    eapply Permutation_Forall; [apply order_by_key_perm|].
    eapply keyed_rows_spec; eassumption.
  - split; [|split; [exact Hranked|]].
    + apply Forall2_length in H2. rewrite <- H2, length_map.
      apply firstn_le_length.
    + intros c Hc. exists ps.
      destruct (proj1 (Forall_forall _ _) Hfrom c Hc) as (p & Hp & Hid).
      exists p. repeat split; assumption.
Qed.

Lemma buscar_chunks_similares_inv :
  forall host query top_k lg w w' chunks,
    buscar_chunks_similares host query top_k (Some lg) w = (w', Ret chunks) ->
    chunks = []
    \/ exists query_embedding,
        chunks = search_result host (db w) query_embedding top_k.
Proof.
  intros host query top_k lg w w' chunks.
  unfold buscar_chunks_similares, generar_embedding_query.
  destruct (is_empty query || is_empty (strip query)).
  - run. fields. done_left.
  - run. fields. cbv beta iota.
    next_fault Hf0; [done_left|].
    destruct (embedding_reply w _ _) as [|x xs] eqn:Hemb; [done_left|].
    fields. cbv beta iota.
    next_fault Hf1; [done_left|].
    next_fault Hf2; [done_left|].
    next_fault Hf3; [done_left|].
    destruct (Sql.nearest _ _ _ _ _) as [rows|e] eqn:Hrows; fields;
      cbv beta iota; [|done_left].
    next_fault Hf4; [done_left|].
    destruct (chunks_of_rows rows []) as [cs|e] eqn:Hcs; fields;
      cbv beta iota; [|done_left].
    next_fault Hf5; [done_left|].
    next_fault Hf6; [done_left|].
    intros Hrun. inversion Hrun; subst. right. exists (x :: xs).
    unfold search_result. rewrite Hrows, Hcs. reflexivity.
Qed.


(** X3: given a logger, the search never raises, and it returns the empty list
    when one of the external calls it made raised. *)
Theorem buscar_chunks_similares_degrades :
  forall host query top_k lg w,
    exists w' chunks,
      buscar_chunks_similares host query top_k (Some lg) w = (w', Ret chunks)
      /\ ((exists n,
              (List.length (trace w) <= n < List.length (trace w'))%nat
              /\ fault w n <> None) ->
          chunks = []).
Proof.
  intros host query top_k lg w.
  destruct (returns_buscar_chunks_similares host query top_k lg w)
    as (w' & chunks & Hrun).
  exists w', chunks. split; [exact Hrun|].
  apply (buscar_chunks_similares_failure host query top_k lg w w' chunks Hrun).
Qed.

Lemma buscar_chunks_similares_degrades_witness :
  exists w' chunks,
    buscar_chunks_similares Demo.host "hola" 4 (Some Demo.logger)
                            Demo.unreachable = (w', Ret chunks)
    /\ chunks = [].
Proof.
  destruct (buscar_chunks_similares_degrades
              Demo.host "hola" 4 Demo.logger Demo.unreachable)
    as (w' & chunks & Hrun & Hfail).
  exists w', chunks. split; [exact Hrun|]. apply Hfail.
  pose proof Hrun as Hw. vm_compute in Hw. injection Hw as Hw _. subst w'.
  exists 0%nat. split; [vm_compute; lia | discriminate].
Defined.

(** X4: [busqueda_cupra_chunks] never raises, whatever the logger; called
    without one (as the module's own script does) it returns the empty list
    for every query, and neither the embedding endpoint nor the store is
    called. *)
Theorem busqueda_cupra_chunks_never_raises :
  forall host query top_k,
    (forall logger w,
        exists w' chunks,
          busqueda_cupra_chunks host query top_k logger w = (w', Ret chunks))
    /\ (forall w,
           exists w',
             busqueda_cupra_chunks host query top_k None w = (w', Ret [])
             /\ trace w' = trace w).
Proof.
  intros host query top_k. split.
  - intros logger w.
    exact (returns_busqueda_cupra_chunks host query top_k logger w).
  - intros w. eexists. split; reflexivity.
Qed.

(** ** Statistics, health and the connection test *)

(** X5: given a logger, the statistics never raise and are all or nothing: the
    empty mapping, or the four statistics with ['total_chunks'] the number
    of rows of the table; and they are the empty mapping when a call to the
    store raised. *)
Theorem obtener_estadisticas_bd_all_or_nothing :
  forall lg w,
    exists w' stats,
      obtener_estadisticas_bd (Some lg) w = (w', Ret stats)
      /\ (stats = []
          \/ exists rows,
              cupra_chunks (db w) = Some rows
              /\ map fst stats
                 = ["total_chunks"; "titulos_unicos"; "promedio_caracteres";
                    "ultimo_ingreso"]
              /\ dict_get stats "total_chunks"
                 = Some (SInt (Z.of_nat (List.length rows))))
      /\ ((exists n,
              (List.length (trace w) <= n < List.length (trace w'))%nat
              /\ fault w n <> None) ->
          stats = []).
Proof.
  intros lg w.
  assert (returns (obtener_estadisticas_bd (Some lg))) as Hret
      by (unfold obtener_estadisticas_bd; auto with returns).
  destruct (Hret w) as (w' & stats & Hrun). exists w', stats.
  split; [exact Hrun|]. revert Hrun.
  unfold obtener_estadisticas_bd, queries, collect_stats. run. fields.
  cbv [Sql.count Sql.distinct_titles Sql.avg_chars Sql.last_insert Sql.table].
  destruct (cupra_chunks (db w)) as [rows|] eqn:Hrows.
  - steps Hrows.
    intros Hrun. inversion Hrun; subst. split.
    + right. exists rows. repeat split.
    + intros (n & Hn & Hbad). exfalso. apply Hbad. revert Hn. fields.
      intros Hn. answered.
  - steps Hrows.
    intros Hrun; inversion Hrun; subst; split; [left; reflexivity|].
    intros _; reflexivity.
Qed.

Lemma obtener_estadisticas_bd_all_or_nothing_witness :
  exists w' stats,
    obtener_estadisticas_bd (Some Demo.logger) Demo.unreachable
    = (w', Ret stats)
    /\ stats = [].
Proof.
  destruct (obtener_estadisticas_bd_all_or_nothing
              Demo.logger Demo.unreachable)
    as (w' & stats & Hrun & _ & Hfail).
  exists w', stats. split; [exact Hrun|]. apply Hfail.
  pose proof Hrun as Hw. vm_compute in Hw. injection Hw as Hw _. subst w'.
  exists 0%nat. split; [vm_compute; lia | discriminate].
Defined.

Lemma hd_error_filter :
  forall (A : Type) (f : A -> bool) l,
    is_not_none (hd_error (filter f l)) = existsb f l.
Proof.
  intros A f. induction l as [|x l IH]; simpl; [reflexivity|].
  destruct (f x); simpl; [reflexivity | exact IH].
Qed.

(** X6: when every call to the store answers, the health mapping reports the
    store: whether the vector extension is installed, whether the table
    exists, whether the table has an index named like [embedding]; the
    connection is ok and there is no ['error']. *)
Theorem verificar_salud_bd_reports_store :
  forall w,
    (forall n, fault w n = None) ->
    snd (verificar_salud_bd w)
    = Ret (mkSalud (pgvector_installed (db w))
                   (is_not_none (cupra_chunks (db w)))
                   (index_on_embedding (db w))
                   true None).
Proof.
  intros w Hf. unfold verificar_salud_bd, index_on_embedding. run.
  cbv [Sql.extension Sql.table_exists Sql.vector_index].
  repeat (progress (fields; rewrite ?Hf; cbv beta iota; cbn [hd_error])).
  cbn [snd]. rewrite <- hd_error_filter.
  destruct (pgvector_installed (db w)); destruct (cupra_chunks (db w));
    reflexivity.
Qed.

Lemma verificar_salud_bd_reports_store_witness :
  (forall n, fault Demo.empty_corpus n = None)
  /\ snd (verificar_salud_bd Demo.empty_corpus)
     = Ret (mkSalud true true false true None).
Proof.
  split; [intros n; reflexivity|].
  exact (verificar_salud_bd_reports_store Demo.empty_corpus
                                          (fun _ => eq_refl)).
Defined.

(** X7: the connection test does not swallow a failure: when connecting or
    closing raises, it prints the error and raises the same exception;
    otherwise it returns. *)
Theorem test_connection_propagates :
  forall w,
    let n := List.length (trace w) in
    (forall e, fault w n = Some e ->
               snd (_test_connection w) = Raise e
               /\ stdout (fst (_test_connection w))
                  = (stdout w
                     ++ [("❌ Error conectando a PostgreSQL: " ++ str_exn e)%string])%list)
    /\ (fault w n = None ->
        forall e, fault w (S n) = Some e -> snd (_test_connection w) = Raise e)
    /\ (fault w n = None -> fault w (S n) = None ->
        snd (_test_connection w) = Ret tt).
Proof.
  intros w n. subst n. unfold _test_connection. run. fields.
  repeat split.
  - rewrite H. reflexivity.
  - rewrite H. reflexivity.
  - intros H e He. rewrite H. fields. rewrite length_app. cbn [List.length].
    rewrite Nat.add_1_r, He. reflexivity.
  - intros H He. rewrite H. fields. rewrite length_app. cbn [List.length].
    rewrite Nat.add_1_r, He. reflexivity.
Qed.

Lemma test_connection_propagates_witness :
  snd (_test_connection Demo.unreachable)
  = Raise (PyExn "OperationalError" "connection refused")
  /\ snd (_test_connection Demo.healthy) = Ret tt.
Proof.
  split.
  - exact (proj1 (proj1 (test_connection_propagates Demo.unreachable)
                        (PyExn "OperationalError" "connection refused")
                        eq_refl)).
  - exact (proj2 (proj2 (test_connection_propagates Demo.healthy))
                 eq_refl eq_refl).
Defined.

(** ** The search by title *)

Lemma key_ge_total :
  forall a b, SqlTitulo.key_ge a b = false -> SqlTitulo.key_ge b a = true.
Proof.
  intros [x|] [y|]; simpl; try congruence. intros H.
  apply Z.leb_le. apply Z.leb_gt in H. lia.
Qed.

Lemma key_ge_trans :
  forall a b c,
    SqlTitulo.key_ge a b = true -> SqlTitulo.key_ge b c = true ->
    SqlTitulo.key_ge a c = true.
Proof.
  intros [x|] [y|] [z|]; simpl; try congruence.
  rewrite !Z.leb_le. lia.
Qed.

Lemma insert_desc_perm :
  forall x l, Permutation (x :: l) (SqlTitulo.insert_desc x l).
Proof.
  induction l as [|y l IH]; simpl; [reflexivity|].
  destruct (SqlTitulo.key_ge _ _); [reflexivity|].
  rewrite perm_swap. constructor. exact IH.
Qed.

Lemma order_desc_perm : forall l, Permutation l (SqlTitulo.order_desc l).
Proof.
  induction l as [|x l IH]; simpl; [constructor|].
  rewrite <- insert_desc_perm. constructor. exact IH.
Qed.

Lemma insert_desc_sorted :
  forall x l,
    LocallySorted by_char_count l ->
    LocallySorted by_char_count (SqlTitulo.insert_desc x l).
Proof.
  intros x l Hs. induction Hs as [|y|y z l Hs IH Hyz]; simpl.
  - constructor.
  - destruct (SqlTitulo.key_ge (p_char_count x) (p_char_count y)) eqn:Hxy.
    + constructor; [constructor | exact Hxy].
    + constructor; [constructor | exact (key_ge_total _ _ Hxy)].
  - destruct (SqlTitulo.key_ge (p_char_count x) (p_char_count y)) eqn:Hxy.
    + constructor; [constructor; assumption | exact Hxy].
    + simpl in IH.
      destruct (SqlTitulo.key_ge (p_char_count x) (p_char_count z)) eqn:Hxz.
      * constructor; [exact IH | exact (key_ge_total _ _ Hxy)].
      * constructor; [exact IH | exact Hyz].
Qed.

Lemma order_desc_sorted :
  forall l, StronglySorted by_char_count (SqlTitulo.order_desc l).
Proof.
  intros l. apply Sorted_StronglySorted.
  - intros a b c. unfold by_char_count. apply key_ge_trans.
  - apply Sorted_LocallySorted_iff.
    induction l as [|x l IH]; simpl; [constructor|].
    apply insert_desc_sorted. exact IH.
Qed.

Section BuscarPorTituloFacts.

Variable ilike : string -> string -> bool.

Lemma returns_buscar_por_titulo :
  forall titulo limit, returns (buscar_por_titulo ilike titulo limit).
Proof. intros. unfold buscar_por_titulo. auto with returns. Qed.

Lemma buscar_por_titulo_inv :
  forall titulo limit w w' chunks,
    buscar_por_titulo ilike titulo limit w = (w', Ret chunks) ->
    (chunks = []
     \/ exists rows,
         cupra_chunks (db w) = Some rows
         /\ chunks = map chunk_of_passage
                         (title_selection ilike titulo limit rows))
    /\ ((exists n,
            (List.length (trace w) <= n < List.length (trace w'))%nat
            /\ fault w n <> None) ->
        chunks = []).
Proof.
  intros titulo limit w w' chunks.
  unfold buscar_por_titulo. run. fields. cbv beta iota zeta.
  unfold SqlTitulo.by_title, Sql.table.
  next_fault Hf0; [done_nothing|].
  next_fault Hf1; [done_nothing|].
  next_fault Hf2; [done_nothing|].
  destruct (cupra_chunks (db w)) as [rows|] eqn:Hrows; [|done_nothing].
  destruct (limit <? 0); [done_nothing|].
  next_fault Hf3; [done_nothing|].
  next_fault Hf4; [done_nothing|].
  next_fault Hf5; [done_nothing|].
  intros Hrun. inversion Hrun; subst. split.
  - right. exists rows. split; [reflexivity|].
    unfold title_selection, chunk_of_passage.
    rewrite firstn_map, map_map. reflexivity.
  - intros (n & Hn & Hbad). exfalso. apply Hbad. revert Hn. fields.
    intros Hn. answered.
Qed.

(** X8: the search by title never raises; it returns the empty list when a call
    to the store raised. *)
Theorem buscar_por_titulo_never_raises :
  forall titulo limit w,
    exists w' chunks,
      buscar_por_titulo ilike titulo limit w = (w', Ret chunks)
      /\ ((exists n,
              (List.length (trace w) <= n < List.length (trace w'))%nat
              /\ fault w n <> None) ->
          chunks = []).
Proof.
  intros titulo limit w.
  destruct (returns_buscar_por_titulo titulo limit w) as (w' & chunks & Hrun).
  exists w', chunks. split; [exact Hrun|].
  exact (proj2 (buscar_por_titulo_inv _ _ _ _ _ Hrun)).
Qed.

Lemma title_selection_spec :
  forall titulo limit rows,
    let selected := title_selection ilike titulo limit rows in
    (List.length selected <= Z.to_nat limit)%nat
    /\ StronglySorted by_char_count selected
    /\ forall p, In p selected ->
         In p rows
         /\ exists t, p_title p = Some t
                      /\ ilike t ("%" ++ titulo ++ "%") = true.
Proof.
  intros titulo limit rows. cbv zeta. unfold title_selection.
  split; [apply firstn_le_length|]. split.
  - apply StronglySorted_firstn, order_desc_sorted.
  - intros p Hp. apply In_firstn in Hp.
    apply (Permutation_in _ (Permutation_sym (order_desc_perm _))) in Hp.
    apply filter_In in Hp. destruct Hp as (Hin & Hm).
    split; [exact Hin|]. unfold SqlTitulo.matches in Hm.
    destruct (p_title p) as [t|]; [|discriminate]. exists t. auto.
Qed.

(** X9: the chunks of the search by title: at most [limit] of them, each made
    from a row of the table whose title matches the pattern, in descending
    order of [char_count] with the rows that have none first. *)
Theorem buscar_por_titulo_results :
  forall titulo limit w,
    exists w' chunks selected,
      buscar_por_titulo ilike titulo limit w = (w', Ret chunks)
      /\ chunks = map chunk_of_passage selected
      /\ (List.length chunks <= Z.to_nat limit)%nat
      /\ StronglySorted by_char_count selected
      /\ forall p, In p selected ->
           (exists rows, cupra_chunks (db w) = Some rows /\ In p rows)
           /\ exists t, p_title p = Some t
                        /\ ilike t ("%" ++ titulo ++ "%") = true.
Proof.
  intros titulo limit w.
  destruct (returns_buscar_por_titulo titulo limit w) as (w' & chunks & Hrun).
  exists w', chunks.
  destruct (proj1 (buscar_por_titulo_inv _ _ _ _ _ Hrun))
    as [-> | (rows & Hrows & ->)].
  - exists []. split; [exact Hrun|]. split; [reflexivity|].
    split; [simpl; lia|]. split; [constructor | intros p []].
  - exists (title_selection ilike titulo limit rows).
    destruct (title_selection_spec titulo limit rows) as (Hlen & Hs & Hin).
    split; [exact Hrun|]. split; [reflexivity|].
    split; [rewrite length_map; exact Hlen|]. split; [exact Hs|].
    intros p Hp. destruct (Hin p Hp) as (Hr & Ht).
    split; [exists rows; auto | exact Ht].
Qed.

End BuscarPorTituloFacts.

Lemma buscar_por_titulo_never_raises_witness :
  exists w' chunks,
    buscar_por_titulo DemoMore.ilike "asientos" 10 Demo.unreachable
    = (w', Ret chunks)
    /\ chunks = [].
Proof.
  destruct (buscar_por_titulo_never_raises
              DemoMore.ilike "asientos" 10 Demo.unreachable)
    as (w' & chunks & Hrun & Hfail).
  exists w', chunks. split; [exact Hrun|]. apply Hfail.
  pose proof Hrun as Hw. vm_compute in Hw. injection Hw as Hw _. subst w'.
  exists 0%nat. split; [vm_compute; lia | discriminate].
Defined.

Example buscar_por_titulo_demo :
  snd (buscar_por_titulo DemoMore.ilike "ASIENTOS" 10 Demo.healthy)
  = Ret [mkChunkTitulo 1 "Ajuste de asientos" "Palanca lateral." 16 0
                       (Some 10)].
Proof. vm_compute. reflexivity. Qed.

(** ** The stages of the pipeline *)

Lemma str_int_score : forall n, 1 <= n <= 10 -> In (str_int n) scores.
Proof.
  intros n Hn.
  assert (n = 1 \/ n = 2 \/ n = 3 \/ n = 4 \/ n = 5 \/ n = 6 \/ n = 7
          \/ n = 8 \/ n = 9 \/ n = 10) as Hcases by lia.
  unfold scores.
  repeat (destruct Hcases as [->|Hcases]; [simpl; tauto|]).
  subst n. simpl. tauto.
Qed.

(** X10: given a logger, the evaluation stage never raises and its score is one
    of ["1"], ..., ["10"], whatever the evaluator replies; it makes one
    external call, to the chat model, with the evaluation prompt, at
    temperature 0.1 and at most 10 tokens. *)
Theorem paso_3_quality_agent_in_range :
  forall host self lg query respuesta_llm w,
    self_logger self = Some lg ->
    exists w' score,
      paso_3_quality_agent host self query respuesta_llm w = (w', Ret score)
      /\ In score scores
      /\ trace w'
         = (trace w
              ++ [ChatCreate (MODEL_GPT host)
                             (quality_messages query respuesta_llm)
                             (1 # 10)%Q 10])%list.
Proof.
  intros host self lg query respuesta_llm w H.
  destruct (paso_3_quality_agent_total host self lg query respuesta_llm w H)
    as (w' & n & Hrun & Hn & Htrace).
  exists w', (str_int n). split; [exact Hrun|].
  split; [apply str_int_score; exact Hn | exact Htrace].
Qed.

Lemma paso_3_quality_agent_in_range_witness :
  self_logger Demo.pipeline = Some Demo.logger
  /\ exists w' score,
      paso_3_quality_agent Demo.host Demo.pipeline "hola" respuesta_sin_chunks
                           Demo.unreachable = (w', Ret score)
      /\ In score scores.
Proof.
  split; [reflexivity|].
  destruct (paso_3_quality_agent_in_range
              Demo.host Demo.pipeline Demo.logger "hola" respuesta_sin_chunks
              Demo.unreachable eq_refl)
    as (w' & score & Hrun & Hin & _).
  exists w', score. split; [exact Hrun | exact Hin].
Defined.

Lemma construir_desde_nth :
  forall chunks start i chunk,
    nth_error chunks i = Some chunk ->
    nth_error (construir_desde start chunks) i
    = Some (contexto_parte (start + Z.of_nat i) chunk).
Proof.
  induction chunks as [|c cs IH]; intros start i chunk H.
  - destruct i; discriminate.
  - destruct i as [|i]; simpl in H |- *.
    + inversion H; subst. rewrite Z.add_0_r. reflexivity.
    + rewrite (IH (start + 1) i chunk H). f_equal. f_equal. lia.
Qed.

Lemma construir_desde_length :
  forall chunks start,
    List.length (construir_desde start chunks) = List.length chunks.
Proof.
  induction chunks as [|c cs IH]; intros start; simpl; [reflexivity|].
  rewrite IH. reflexivity.
Qed.

(** X11: on a successful model call the generation stage keeps one context
    block per chunk, in order and numbered from 1; it calls the model once,
    with the system text and the prompt built from the query and those
    blocks, at temperature 0.3 and at most 1000 tokens; and the text of the
    answer is the content of the model's message. *)
Theorem paso_2_llm_context :
  forall host self lg query chunks w,
    self_logger self = Some lg ->
    chunks <> [] ->
    fault w (List.length (trace w)) = None ->
    exists w' r,
      paso_2_llm host self query chunks w = (w', Ret r)
      /\ List.length (contexto_usado r) = List.length chunks
      /\ (forall i chunk,
             nth_error chunks i = Some chunk ->
             nth_error (contexto_usado r) i
             = Some (contexto_parte (Z.of_nat i + 1) chunk))
      /\ trace w'
         = (trace w
              ++ [ChatCreate (MODEL_GPT host)
                    [("system", system_cupra);
                     ("user", _crear_prompt_cupra query (contexto_usado r))]
                    (3 # 10)%Q 1000])%list
      /\ respuesta r
         = chat_reply w (List.length (trace w))
                      [("system", system_cupra);
                       ("user", _crear_prompt_cupra query (contexto_usado r))].
Proof.
  intros host self lg query chunks w H Hne Hf. with_logger self lg H.
  destruct chunks as [|c cs]; [contradiction|].
  unfold paso_2_llm. run. fields. rewrite Hf.
  do 2 eexists. split; [reflexivity|]. cbn [contexto_usado respuesta]. fields.
  unfold _construir_contexto.
  split; [apply construir_desde_length|]. split; [|split; reflexivity].
  intros i chunk Hi. rewrite (construir_desde_nth _ 1 i chunk Hi).
  f_equal. f_equal. lia.
Qed.

Lemma paso_2_llm_context_witness :
  exists w' r,
    paso_2_llm Demo.host Demo.pipeline "hola" [Demo.chunk_a; Demo.chunk_b]
               Demo.healthy = (w', Ret r)
    /\ List.length (contexto_usado r) = 2%nat
    /\ nth_error (contexto_usado r) 1
       = Some (contexto_parte 2 Demo.chunk_b).
Proof.
  destruct (paso_2_llm_context
              Demo.host Demo.pipeline Demo.logger "hola"
              [Demo.chunk_a; Demo.chunk_b] Demo.healthy eq_refl
              ltac:(discriminate) eq_refl)
    as (w' & r & Hrun & Hlen & Hnth & _).
  exists w', r. split; [exact Hrun|]. split; [exact Hlen|].
  exact (Hnth 1%nat Demo.chunk_b eq_refl).
Defined.

(** X12: given a logger, the generation stage never raises.  Its result either
    mirrors the chunks (one source and one context block per chunk, after a
    successful model call) or has confidence [0], no source, no context and
    a text; after a failed model call the text describes the error. *)
Theorem paso_2_llm_never_raises :
  forall host self lg query chunks w,
    self_logger self = Some lg ->
    exists w' r,
      paso_2_llm host self query chunks w = (w', Ret r)
      /\ ((chunks <> []
           /\ fault w (List.length (trace w)) = None
           /\ fuentes r = map fuente_de chunks
           /\ contexto_usado r = _construir_contexto chunks)
          \/ (confianza r = 0%Q /\ fuentes r = [] /\ contexto_usado r = []
              /\ exists text, respuesta r = Some text))
      /\ (forall e,
             chunks <> [] ->
             fault w (List.length (trace w)) = Some e ->
             respuesta r
             = Some ("Error generando respuesta: " ++ str_exn e)).
Proof.
  intros host self lg query chunks w H. with_logger self lg H.
  destruct chunks as [|c cs]; unfold paso_2_llm; run; fields.
  - do 2 eexists. split; [reflexivity|]. split.
    + right. repeat split. eexists. reflexivity.
    + intros e Hne. contradiction.
  - destruct (fault w (List.length (trace w))) as [e|] eqn:Hf.
    + do 2 eexists. split; [reflexivity|]. split.
      * right. repeat split. eexists. reflexivity.
      * intros e' _ He'. inversion He'; subst. reflexivity.
    + do 2 eexists. split; [reflexivity|]. split.
      * left. repeat split. discriminate.
      * intros e' _ He'. discriminate.
Qed.

Lemma paso_2_llm_never_raises_witness :
  self_logger Demo.pipeline = Some Demo.logger
  /\ exists w' r,
      paso_2_llm Demo.host Demo.pipeline "hola" [Demo.chunk_a]
                 Demo.unreachable = (w', Ret r)
      /\ respuesta r
         = Some "Error generando respuesta: connection refused".
Proof.
  split; [reflexivity|].
  destruct (paso_2_llm_never_raises
              Demo.host Demo.pipeline Demo.logger "hola" [Demo.chunk_a]
              Demo.unreachable eq_refl)
    as (w' & r & Hrun & _ & Hfail).
  exists w', r. split; [exact Hrun|].
  exact (Hfail (PyExn "OperationalError" "connection refused")
               ltac:(discriminate) eq_refl).
Defined.

Lemma paso_2_llm_shape :
  forall host self lg query chunks w w' r,
    self_logger self = Some lg ->
    paso_2_llm host self query chunks w = (w', Ret r) ->
    (chunks = [] -> r = respuesta_sin_chunks)
    /\ (fuentes r = map fuente_de chunks \/ fuentes r = []).
Proof.
  intros host self lg query chunks w w' r H. with_logger self lg H.
  destruct chunks as [|c cs]; unfold paso_2_llm; run; fields.
  - intros Hrun. inversion Hrun; subst. split; [reflexivity | right; reflexivity].
  - destruct (fault w (List.length (trace w))) as [e|];
      intros Hrun; inversion Hrun; subst;
      (split; [discriminate|]); [right | left]; reflexivity.
Qed.





Lemma init_on_store_witness :
  (forall n, fault Demo.healthy n = None)
  /\ cupra_chunks (db Demo.healthy)
     = Some [Demo.sin_titulo; Demo.asientos; Demo.luces]
  /\ snd (__init__ (Some Demo.logger) Demo.healthy) = Ret Demo.pipeline.
Proof.
  split; [intros n; reflexivity|]. split; [reflexivity|].
  exact (proj2 (init_on_store (Some Demo.logger) Demo.healthy
                              [Demo.sin_titulo; Demo.asientos; Demo.luces]
                              (fun _ => eq_refl) eq_refl)
               ltac:(discriminate)).
Defined.

(** ** The HTTP boundary *)

Lemma init_returns_logger :
  forall logger w w' p,
    __init__ logger w = (w', Ret p) -> p = mkPipeline logger.
Proof.
  intros logger w w' p. unfold __init__, bind.
  destruct (verificar_salud_bd w) as [w1 [s|e]]; [|discriminate].
  destruct (negb (conexion_ok s)); [discriminate|].
  destruct (obtener_estadisticas_bd None w1) as [w2 [stats|e]]; [|discriminate].
  destruct (equals_zero _); [discriminate|].
  intros H. inversion H. reflexivity.
Qed.


Lemma strip_not_blank :
  forall s, blank s = false -> is_empty (strip s) = false.
Proof.
  intros s Hb. destruct (strip s) eqn:Hs; [|reflexivity].
  apply strip_empty_iff in Hs. congruence.
Qed.

Lemma strip_result_not_blank :
  forall s, blank s = false -> blank (strip s) = false.
Proof.
  intros s Hb. unfold strip.
  destruct (lstrip s) as [|c r] eqn:Hl.
  - exfalso. exact (lstrip_not_blank s Hb Hl).
  - apply lstrip_head in Hl. simpl. rewrite Hl. simpl. rewrite Hl. reflexivity.
Qed.

(** X17: the two guards of the chat endpoint.  Without a pipeline it answers
    503 with the degraded body, which echoes the query as sent.  With a
    pipeline, a blank query is refused with 400 and the world is left as it
    was.  In both cases the pipeline is not run, and neither the store nor
    a model is called. *)
Theorem chat_endpoint_guards :
  forall host logger request_query w,
    (exists now,
        chat_endpoint host logger None request_query w
        = (record_call DatetimeNow w,
           Ret (503,
                mkChatResponse
                  false request_query
                  (mkRespuestaPublica
                     (Some "Servicio en modo degradado (DB no disponible).")
                     0%Q [])
                  "5" 0 now "PostgreSQL")))
    /\ (forall pipeline,
           blank request_query = true ->
           chat_endpoint host logger (Some pipeline) request_query w
           = (w, Raise (http_exception 400 "La consulta no puede estar vacía"))).
Proof.
  intros host logger request_query w. split.
  - eexists. reflexivity.
  - intros pipeline Hb.
    unfold chat_endpoint, try_except_http, try_except.
    rewrite (strip_blank _ Hb). reflexivity.
Qed.

Lemma chat_endpoint_guards_witness :
  blank "   " = true
  /\ chat_endpoint Demo.host Demo.logger (Some Demo.pipeline) "   "
                   Demo.healthy
     = (Demo.healthy,
        Raise (PyExn "HTTPException" "400: La consulta no puede estar vacía")).
Proof.
  split; [reflexivity|].
  exact (proj2 (chat_endpoint_guards Demo.host Demo.logger "   " Demo.healthy)
               Demo.pipeline eq_refl).
Defined.



(** X19: the health endpoint never raises: it returns the mapping of the health
    check, whether a pipeline is available, and the status ["ok"] exactly
    when there is a pipeline and the connection is ok, ["error"]
    otherwise. *)
Theorem health_check_never_raises :
  forall logger pipeline w,
    exists w' r,
      health_check logger pipeline w = (w', Ret r)
      /\ snd (verificar_salud_bd w) = Ret (health_database_status r)
      /\ health_pipeline_available r = is_not_none pipeline
      /\ (health_status r = "ok"
          <-> pipeline <> None
              /\ conexion_ok (health_database_status r) = true)
      /\ (health_status r = "ok" \/ health_status r = "error").
Proof.
  intros logger pipeline w. unfold health_check, try_except, bind.
  destruct (returns_verificar_salud_bd w) as (w1 & s & ->).
  unfold datetime_now, ret. do 2 eexists. split; [reflexivity|].
  cbn [health_database_status health_pipeline_available health_status snd].
  split; [reflexivity|]. split; [reflexivity|].
  destruct pipeline as [p|]; destruct (conexion_ok s); cbn [is_not_none andb];
    (split;
     [split;
      [intros Hs;
       first [discriminate Hs | split; [discriminate | reflexivity]]
      |intros [Hp Hc];
       first [reflexivity | discriminate Hc | exfalso; apply Hp; reflexivity]]
     |first [left; reflexivity | right; reflexivity]]).
Qed.

(** Without a logger the statistics are never empty: they are the four
    statistics, or the call raises [AttributeError]. *)
Lemma obtener_estadisticas_bd_without_logger :
  forall w,
    (exists w' stats rows,
        obtener_estadisticas_bd None w = (w', Ret stats)
        /\ cupra_chunks (db w) = Some rows
        /\ map fst stats
           = ["total_chunks"; "titulos_unicos"; "promedio_caracteres";
              "ultimo_ingreso"]
        /\ dict_get stats "total_chunks"
           = Some (SInt (Z.of_nat (List.length rows))))
    \/ (exists w',
           obtener_estadisticas_bd None w
           = (w', Raise (attribute_error_none "warning"))).
Proof.
  intros w.
  unfold obtener_estadisticas_bd, queries, collect_stats. run. fields.
  cbv [Sql.count Sql.distinct_titles Sql.avg_chars Sql.last_insert Sql.table].
  destruct (cupra_chunks (db w)) as [rows|] eqn:Hrows.
  - repeat first
      [ progress (fields; cbv beta iota; cbn [hd_error]; rewrite ?Hrows)
      | let H := fresh "Hf" in next_fault H;
        [right; eexists; reflexivity|] ].
    left. do 2 eexists. exists rows. repeat split.
  - repeat first
      [ progress (fields; cbv beta iota; cbn [hd_error]; rewrite ?Hrows)
      | let H := fresh "Hf" in next_fault H;
        [right; eexists; reflexivity|] ].
    right. eexists. reflexivity.
Qed.

(** X20: the statistics endpoint asks for the statistics without a logger.  It
    answers with the four statistics of the table, or raises 500 with the
    text of the [AttributeError] of the missing logger: the empty mapping
    is never served, and the store's own error is not reported. *)
Theorem database_stats_outcomes :
  forall logger w,
    (exists w' r rows,
        database_stats logger w = (w', Ret r)
        /\ stats_success r = true
        /\ cupra_chunks (db w) = Some rows
        /\ map fst (stats_statistics r)
           = ["total_chunks"; "titulos_unicos"; "promedio_caracteres";
              "ultimo_ingreso"]
        /\ dict_get (stats_statistics r) "total_chunks"
           = Some (SInt (Z.of_nat (List.length rows))))
    \/ (exists w',
           database_stats logger w
           = (w',
              Raise (http_exception
                       500
                       "Error obteniendo estadísticas: 'NoneType' object has no attribute 'warning'"))).
Proof.
  intros logger w. unfold database_stats, try_except, bind.
  destruct (obtener_estadisticas_bd_without_logger w)
    as [(w1 & stats & rows & Hrun & Hrows & Hkeys & Htotal) | (w1 & Hrun)];
    rewrite Hrun.
  - left. destruct (returns_verificar_salud_bd w1) as (w2 & s & ->).
    unfold datetime_now, ret. do 2 eexists. exists rows.
    split; [reflexivity|]. repeat split; assumption.
  - right. run. eexists. reflexivity.
Qed.



(** ** The JSON log handler *)

Module JSONLogHandlerFacts.
Import JSONLogHandler.

Lemma write_same : forall fs i v, write fs i v i = v.
Proof. intros. unfold write. rewrite Nat.eqb_refl. reflexivity. Qed.

Lemma write_other : forall fs i v j, j <> i -> write fs i v j = fs j.
Proof.
  intros fs i v j H. unfold write.
  destruct (Nat.eqb_spec j i); [contradiction | reflexivity].
Qed.

Lemma exists_false : forall fs i, exists_ fs i = false -> fs i = None.
Proof. intros fs i. unfold exists_. destruct (fs i); [discriminate | auto]. Qed.

(** One pass of the loop body at [i >= 1]. *)
Lemma rotate_spec :
  forall fs i,
    (1 <= i)%nat ->
    rotate fs i i = None
    /\ rotate fs i (S i)
       = match fs i with Some c => Some c | None => fs (S i) end
    /\ forall j, j <> i -> j <> S i -> rotate fs i j = fs j.
Proof.
  intros fs i Hi. unfold rotate, rename, remove, exists_.
  replace (i + 1)%nat with (S i) by lia.
  destruct (fs i) as [c|] eqn:Hc.
  - split; [apply write_same|]. split.
    + rewrite write_other by lia. rewrite write_same.
      destruct (fs (S i)); [rewrite write_other by lia|]; exact Hc.
    + intros j Hj Hj'. rewrite !write_other by lia.
      destruct (fs (S i)); [rewrite write_other by lia|]; reflexivity.
  - split; [exact Hc|]. split; [reflexivity | reflexivity].
Qed.

(** The whole loop, over [m, m-1, ..., 1]. *)
Lemma rotation_spec :
  forall m fs,
    let r := fold_left rotate (range_down m) fs in
    r 0%nat = fs 0%nat
    /\ ((1 <= m)%nat -> r 1%nat = None)
    /\ (forall k, (1 <= k < m)%nat -> r (S k) = fs k)
    /\ ((1 <= m)%nat ->
        r (S m) = match fs m with Some c => Some c | None => fs (S m) end)
    /\ (forall k, (S m < k)%nat -> r k = fs k).
Proof.
  induction m as [|m IH]; intros fs; cbv zeta.
  - simpl. repeat split; intros; try lia; reflexivity.
  - cbn [range_down fold_left].
    specialize (IH (rotate fs (S m))). cbv zeta in IH.
    destruct IH as (I0 & I1 & Imid & Itop & Irest).
    destruct (rotate_spec fs (S m) ltac:(lia)) as (R0 & R1 & Rother).
    repeat split.
    + rewrite I0. apply Rother; lia.
    + intros _. destruct m as [|m]; [exact R0 | apply I1; lia].
    + intros k Hk. destruct (Nat.eq_dec k m) as [->|Hne].
      * rewrite Itop by lia. rewrite R0, Rother by lia.
        destruct (fs m); reflexivity.
      * rewrite Imid by lia. apply Rother; lia.
    + intros _. rewrite Irest by lia. exact R1.
    + intros k Hk. rewrite Irest by lia. apply Rother; lia.
Qed.

(** X22: a rollover of an existing log file moves it to backup 1, moves every
    backup below [backup_count] one place up, leaves the backups above
    [backup_count] alone and resets the counter: only the oldest backup can
    be lost. *)
Theorem do_rollover_shifts :
  forall self line,
    files self 0%nat = Some line ->
    let after := do_rollover self in
    let n := Z.to_nat (backup_count self) in
    files after 0%nat = None
    /\ files after 1%nat = Some line
    /\ current_size after = 0
    /\ (forall i old,
           (1 <= i < n)%nat -> files self i = Some old ->
           files after (S i) = Some old)
    /\ (forall k, (Nat.max n 1 < k)%nat -> files after k = files self k).
Proof.
  intros self line H0. cbv zeta. unfold do_rollover, exists_. rewrite H0.
  cbn [files current_size].
  set (m := Z.to_nat (backup_count self - 1)).
  destruct (rotation_spec m (files self)) as (R0 & R1 & Rmid & Rtop & Rrest).
  cbv zeta in R0, R1, Rmid, Rtop, Rrest.
  set (r := fold_left rotate (range_down m) (files self)) in *.
  assert (forall fs : Files,
             (if match fs 1%nat with Some _ => true | None => false end
              then remove fs 1 else fs) 0%nat = fs 0%nat) as Hkeep0.
  { intros fs. destruct (fs 1%nat); [apply write_other; lia | reflexivity]. }
  assert (forall (fs : Files) k, (2 <= k)%nat ->
             (if match fs 1%nat with Some _ => true | None => false end
              then remove fs 1 else fs) k = fs k) as Hkeep.
  { intros fs k Hk. destruct (fs 1%nat); [apply write_other; lia | reflexivity]. }
  unfold rename. split; [|split; [|split; [|split]]].
  - apply write_same.
  - rewrite write_other by lia. rewrite write_same, Hkeep0, R0. exact H0.
  - reflexivity.
  - intros i old Hi Hold. rewrite !write_other by lia. rewrite Hkeep by lia.
    assert (Z.to_nat (backup_count self) = S m) as Hn by (subst m; lia).
    rewrite Hn in Hi.
    destruct (Nat.eq_dec i m) as [->|Hne].
    + rewrite Rtop by lia. rewrite Hold. reflexivity.
    + rewrite Rmid by lia. exact Hold.
  - intros k Hk. rewrite !write_other by lia. rewrite Hkeep by lia.
    apply Rrest. subst m. lia.
Qed.

Lemma getsize_append :
  forall fs line,
    getsize (append fs 0 line) 0
    = getsize fs 0 + Z.of_nat (String.length line).
Proof.
  intros fs line. unfold getsize, append. rewrite write_same.
  destruct (fs 0%nat) as [bytes|]; [|lia].
  assert (forall a b, String.length (a ++ b)
                      = (String.length a + String.length b)%nat) as Hlen.
  { induction a as [|c a IH]; intros b; simpl; [reflexivity | rewrite IH; reflexivity]. }
  rewrite Hlen. lia.
Qed.

Lemma do_rollover_tracks :
  forall self, tracks self -> tracks (do_rollover self).
Proof.
  intros self Ht. unfold do_rollover.
  destruct (exists_ (files self) 0) eqn:He; [|exact Ht].
  unfold tracks, getsize, rename. cbn [files current_size].
  rewrite write_same. reflexivity.
Qed.

(** X23: writing an entry keeps the counter equal to the size of the log file
    and appends the entry to it; afterwards the file is below [max_bytes]
    or holds that entry alone. *)
Theorem emit_tracks_size :
  forall self json_line,
    tracks self ->
    let after := emit self json_line in
    tracks after
    /\ (exists old, files after 0%nat = Some (old ++ json_line))
    /\ (current_size after < max_bytes self
        \/ files after 0%nat = Some json_line).
Proof.
  intros self json_line Ht. cbv zeta. unfold emit.
  destruct (should_rollover self (Z.of_nat (String.length json_line))) eqn:Hroll.
  - pose proof (do_rollover_tracks self Ht) as Ht'.
    assert (files (do_rollover self) 0%nat = None) as Hnone.
    { unfold do_rollover. destruct (exists_ (files self) 0) eqn:He.
      - cbn [files]. unfold rename. apply write_same.
      - apply exists_false. exact He. }
    split; [|split].
    + unfold tracks in *. cbn [files current_size].
      rewrite getsize_append, Ht'. reflexivity.
    + exists "". cbn [files]. unfold append. rewrite write_same, Hnone.
      reflexivity.
    + right. cbn [files]. unfold append. rewrite write_same, Hnone.
      reflexivity.
  - split; [|split].
    + unfold tracks in *. cbn [files current_size].
      rewrite getsize_append, Ht. reflexivity.
    + cbn [files]. unfold append. rewrite write_same.
      destruct (files self 0%nat) as [bytes|]; [exists bytes | exists ""];
        reflexivity.
    + left. cbn [current_size]. unfold should_rollover in Hroll.
      rewrite Z.geb_leb in Hroll. apply Z.leb_gt in Hroll. exact Hroll.
Qed.

Lemma init_tracks :
  forall fs max_bytes backup_count, tracks (init fs max_bytes backup_count).
Proof.
  intros fs mb bc. unfold tracks, init, getsize, exists_. cbn [files current_size].
  destruct (fs 0%nat); reflexivity.
Qed.

Lemma do_rollover_shifts_witness :
  files DemoMore.handler 0%nat = Some "12345"
  /\ files (do_rollover DemoMore.handler) 0%nat = None
  /\ files (do_rollover DemoMore.handler) 1%nat = Some "12345"
  /\ files (do_rollover DemoMore.handler) 2%nat = Some "old".
Proof.
  split; [reflexivity|].
  destruct (do_rollover_shifts DemoMore.handler "12345" eq_refl)
    as (H0 & H1 & _ & Hup & _).
  split; [exact H0|]. split; [exact H1|].
  exact (Hup 1%nat "old" ltac:(vm_compute; lia) eq_refl).
Defined.

Lemma emit_tracks_size_witness :
  tracks DemoMore.handler
  /\ tracks (emit DemoMore.handler "678901")
  /\ (exists old,
        files (emit DemoMore.handler "678901") 0%nat = Some (old ++ "678901"))
  /\ (current_size (emit DemoMore.handler "678901") < 10
      \/ files (emit DemoMore.handler "678901") 0%nat = Some "678901").
Proof.
  split; [apply init_tracks|].
  exact (emit_tracks_size DemoMore.handler "678901"
                          (init_tracks DemoMore.log_files 10 3)).
Defined.

End JSONLogHandlerFacts.
